(** * Synthetic sleep-diary generator: a shallow embedding

    The two scripts [natale2009_based_synthetic_data_generator.py] (module
    [Basic]) and [natale2009_advanced_generator.py] (module [Advanced]) are
    embedded as state-passing functions over the numpy random stream.

    Numbers.  Python floats and ints are modelled by exact rationals [Q]
    (an int [z] is [inject_Z z]); "not a number" is a cell constructor of its
    own ([CNaN]).  The rounding error of binary64 arithmetic is outside the
    model: every statement below is about the exact values of the
    expressions the source writes.

    Libraries.  numpy's samplers, [pandas.to_datetime] on strings and
    [float] on strings are fields of the class [Lib]; the generators are
    written against that interface and every general theorem holds for any
    instance.  One small concrete instance ([ToyLib]) is used to evaluate
    the generators on concrete inputs. *)

From Stdlib Require Import ZArith QArith Qround Qabs Qminmax List String Ascii Bool Lia Lqa.
From Stdlib Require Import DecimalString.
From Stdlib Require DecimalNat DecimalFacts.
Import ListNotations.
Local Open Scope string_scope.
Local Open Scope Q_scope.

(** ** Python values, errors *)

(** [datetime.datetime] / [pandas.Timestamp]. *)
Record timestamp := mkTimestamp {
  ts_year : Z; ts_month : Z; ts_day : Z;
  ts_hour : Z; ts_minute : Z; ts_second : Z; ts_microsecond : Z }.

(** [datetime.time]. *)
Record pytime := mkTime {
  t_hour : Z; t_minute : Z; t_second : Z; t_microsecond : Z }.

(** [datetime.timedelta] in its normal form (days, seconds, microseconds). *)
Record timedelta := mkTimedelta {
  td_days : Z; td_seconds : Z; td_microseconds : Z }.

(** The values a cell of the parameter table can hold.  [VOther] stands for
    a value of any other Python type, with the text of [type(val)]. *)
Inductive pyval :=
| VTimestamp (d : timestamp)
| VTime (t : pytime)
| VTimedelta (d : timedelta)
| VStr (s : string)
| VInt (z : Z)
| VFloat (q : Q)
| VOther (type_repr : string).

Inductive error :=
| TypeError (msg : string)
| ValueError (msg : string)
| ZeroDivisionError
| KeyError (key : string).

Definition result (A : Type) : Type := (error + A)%type.

Definition res_bind {A B} (r : result A) (f : A -> result B) : result B :=
  match r with inl e => inl e | inr a => f a end.

(** [timestamp.time()] *)
Definition time_of (d : timestamp) : pytime :=
  mkTime (ts_hour d) (ts_minute d) (ts_second d) (ts_microsecond d).

(** [timedelta.total_seconds()] *)
Definition total_seconds (d : timedelta) : Q :=
  inject_Z ((td_days d * 86400 + td_seconds d) * 10 ^ 6 + td_microseconds d)
  / inject_Z (10 ^ 6).

(** ** The library interface *)

Class Lib := {
  (** state of numpy's global generator *)
  rng : Type;
  (** [np.random.seed] *)
  seed_state : Z -> rng;
  (** one draw of [np.random.normal(loc, scale)], scale >= 0 *)
  draw_normal : Q -> Q -> rng -> Q * rng;
  (** one draw of [np.random.gamma(shape, scale)], shape, scale >= 0 *)
  draw_gamma : Q -> Q -> rng -> Q * rng;
  (** one draw of [np.random.poisson(lam)] *)
  draw_poisson : Q -> rng -> Z * rng;
  (** [pd.to_datetime] on a string; [None] when the parser raises *)
  to_datetime : string -> option timestamp;
  (** [float] on a string; [None] when it raises *)
  float_of_str : string -> option Q
}.

(** ** Time normalisation (the same text in both scripts) *)

Section Normalizer.
Context {L : Lib}.

(** The test after the branches: [allow_negative and mins >= 1080] (the
    message printed when it holds is not modelled). *)
Definition wrap_evening (allow_negative : bool) (mins : Z) : Q :=
  if allow_negative && (1080 <=? mins)%Z
  then inject_Z (mins - 1440)
  else inject_Z mins.

Definition convert_time_to_minutes (val : pyval) (allow_negative : bool)
  : result Q :=
  match val with
  | VTimestamp d =>
      let mins := (ts_hour d * 60 + ts_minute d)%Z in
      inr (wrap_evening allow_negative mins)
  | VTime t =>
      let mins := (t_hour t * 60 + t_minute t)%Z in
      inr (wrap_evening allow_negative mins)
  | VTimedelta d => inr (total_seconds d / 60)
  | VStr s =>
      match to_datetime s with
      | None => inl (ValueError ("Unknown datetime string format: " ++ s))
      | Some d =>
          let t := time_of d in
          let mins := (t_hour t * 60 + t_minute t)%Z in
          inr (wrap_evening allow_negative mins)
      end
  | VInt z => inr (inject_Z z)
  | VFloat q => inr q
  | VOther ty => inl (TypeError ("Unexpected type: " ++ ty))
  end.

End Normalizer.

(** ** Arithmetic of Python and numpy on exact numbers *)

Definition Qltb (x y : Q) : bool := negb (Qle_bool y x).

(** [x % m] on floats, for a positive modulus: the result has the sign of
    the divisor. *)
Definition py_mod (x m : Q) : Q := x - m * inject_Z (Qfloor (x / m)).

(** [x / y] on Python floats raises on a zero divisor. *)
Definition py_div (x y : Q) : result Q :=
  if Qeq_bool y 0 then inl ZeroDivisionError else inr (x / y).

(** [round(x)] and [np.round(x)]: to the nearest integer, ties to even. *)
Definition py_round (x : Q) : Z :=
  let f := Qfloor x in
  let r := x - inject_Z f in
  if Qltb r (1 # 2) then f
  else if Qltb (1 # 2) r then (f + 1)%Z
  else if Z.even f then f else (f + 1)%Z.

(** [round(x, 1)] *)
Definition py_round1 (x : Q) : Q := inject_Z (py_round (x * 10)) / 10.

(** [int(x)] on a float: truncation towards zero. *)
Definition py_int (x : Q) : Z :=
  if Qltb x 0 then Qceiling x else Qfloor x.

(** [np.clip(x, lo, hi)] is [minimum(maximum(x, lo), hi)]. *)
Definition np_clip (x lo hi : Q) : Q := Qmin (Qmax x lo) hi.
Definition np_clip_int (x lo hi : Z) : Z := Z.min (Z.max x lo) hi.

(** ** Formatting *)

Definition str_of_nat (n : nat) : string :=
  NilZero.string_of_uint (Nat.to_uint n).

Fixpoint zeros (k : nat) : string :=
  match k with O => EmptyString | S k' => String "0"%char (zeros k') end.

(** The format specification [0<width>d] on a non-negative integer. *)
Definition zfill (width n : nat) : string :=
  let s := str_of_nat n in
  (zeros (width - String.length s) ++ s)%string.

Definition str_of_Z (z : Z) : string :=
  if (z <? 0)%Z then ("-" ++ str_of_nat (Z.to_nat (- z)))%string
  else str_of_nat (Z.to_nat z).

(** The timestamp [pd.to_datetime(y, unit='m')] of a minute count, printed
    with [strftime("%H:%M")]: whole minutes since the epoch, hour of day
    and minute of hour.  (pandas keeps the timestamp on a nanosecond grid;
    how it rounds the fraction of a minute onto that grid is not modelled.) *)
Definition strftime_HM (y : Q) : string :=
  let t := Qfloor y in
  (zfill 2 (Z.to_nat ((t / 60) mod 24)) ++ ":" ++ zfill 2 (Z.to_nat (t mod 60)))%string.

(** [lambda x: pd.to_datetime(x % (24 * 60), unit='m').strftime("%H:%M")] *)
Definition minutes_to_clock (x : Q) : string :=
  strftime_HM (py_mod x (24 * 60)).

(** ** Calendar dates (the [Day] column of the advanced script) *)

Record date := mkDate { d_year : nat; d_month : nat; d_day : nat }.

Definition is_leap (y : nat) : bool :=
  ((y mod 4 =? 0) && negb (y mod 100 =? 0) || (y mod 400 =? 0))%nat.

Definition days_in_month (y m : nat) : nat :=
  match m with
  | 2 => if is_leap y then 29 else 28
  | 4 | 6 | 9 | 11 => 30
  | _ => 31
  end%nat.

Definition next_day (d : date) : date :=
  if (d_day d <? days_in_month (d_year d) (d_month d))%nat
  then mkDate (d_year d) (d_month d) (S (d_day d))
  else if (d_month d <? 12)%nat
       then mkDate (d_year d) (S (d_month d)) 1
       else mkDate (S (d_year d)) 1 1.

(** [d + pd.Timedelta(days=n)] for [n >= 0].  Dates are unbounded here;
    the range of pandas timestamps (which ends in 2262) is not modelled. *)
Definition add_days (d : date) (n : nat) : date := Nat.iter n next_day d.

(** [strftime("%d/%m/%Y")] *)
Definition strftime_dmY (d : date) : string :=
  (zfill 2 (d_day d) ++ "/" ++ zfill 2 (d_month d) ++ "/" ++ zfill 4 (d_year d))%string.

(** ** Tables *)

(** A cell of an output table. *)
Inductive cell :=
| CStr (s : string)
| CNum (q : Q)
| CNaN
| CInt (z : Z)
| CNone.

(** A record is a Python dict: its keys in insertion order. *)
Definition row := list (string * cell).

(** [pd.DataFrame(records)]: the rows; every record of one run has the same
    keys in the same order, and those are the columns. *)
Definition dataframe := list row.

Fixpoint get (r : row) (key : string) : option cell :=
  match r with
  | [] => None
  | (k, v) :: r' => if String.eqb k key then Some v else get r' key
  end.

Definition getitem (r : row) (key : string) : result cell :=
  match get r key with Some v => inr v | None => inl (KeyError key) end.

Definition columns (df : dataframe) : list string :=
  match df with [] => [] | r :: _ => map fst r end.

Definition has_column (df : dataframe) (c : string) : bool :=
  existsb (String.eqb c) (columns df).

Fixpoint res_map {A B} (f : A -> result B) (l : list A) : result (list B) :=
  match l with
  | [] => inr []
  | x :: l' =>
      res_bind (f x) (fun y =>
      res_bind (res_map f l') (fun ys => inr (y :: ys)))
  end.

(** ** The parameter table

    [df_params]: indexed by variable name, with a [Mean] cell of any type
    and a numeric [SD]. *)

Definition param_table := list (string * (pyval * Q)).

Fixpoint loc (t : param_table) (var : string) : result (pyval * Q) :=
  match t with
  | [] => inl (KeyError var)
  | (k, v) :: t' => if String.eqb k var then inr v else loc t' var
  end.

(** [df_params.loc[var, "Mean"] = m] *)
Definition set_mean (t : param_table) (var : string) (m : pyval) : param_table :=
  map (fun e => if String.eqb (fst e) var then (fst e, (m, snd (snd e))) else e) t.

(** [df_params.loc[var, "SD"] *= c] *)
Definition scale_sd (t : param_table) (var : string) (c : Q) : param_table :=
  map (fun e => if String.eqb (fst e) var
                then (fst e, (fst (snd e), snd (snd e) * c)) else e) t.

Section Generators.
Context {L : Lib}.

(** [float(v)] *)
Definition py_float (v : pyval) : result Q :=
  match v with
  | VInt z => inr (inject_Z z)
  | VFloat q => inr q
  | VStr s =>
      match float_of_str s with
      | Some q => inr q
      | None => inl (ValueError ("could not convert string to float: " ++ s))
      end
  | _ => inl (TypeError "float() argument must be a string or a real number")
  end.

(** The statements between reading the table and the loop: the two clock
    means are normalised, the two clock SDs go from hours to minutes. *)
Definition normalize_params (t : param_table) : result param_table :=
  res_bind (loc t "Light Off") (fun lo =>
  res_bind (convert_time_to_minutes (fst lo) true) (fun m_lo =>
  let t1 := set_mean t "Light Off" (VFloat m_lo) in
  res_bind (loc t1 "Sleep End") (fun se =>
  res_bind (convert_time_to_minutes (fst se) false) (fun m_se =>
  let t2 := set_mean t1 "Sleep End" (VFloat m_se) in
  let t3 := scale_sd t2 "Light Off" 60 in
  let t4 := scale_sd t3 "Sleep End" 60 in
  inr t4)))).

Definition get_params (t : param_table) (var : string) : result (Q * Q) :=
  res_bind (loc t var) (fun e =>
  res_bind (py_float (fst e)) (fun m => inr (m, snd e))).

(** *** The generator monad: the global numpy stream and exceptions *)

Definition M (A : Type) : Type := rng -> result (A * rng).

Definition ret {A} (a : A) : M A := fun s => inr (a, s).

Definition bind {A B} (m : M A) (f : A -> M B) : M B :=
  fun s => match m s with inl e => inl e | inr (a, s') => f a s' end.

Definition lift {A} (r : result A) : M A :=
  fun s => match r with inl e => inl e | inr a => inr (a, s) end.

Notation "x <- c1 ;; c2" := (bind c1 (fun x => c2))
  (at level 61, c1 at next level, right associativity).
Notation "' p <- c1 ;; c2" := (bind c1 (fun x => match x with p => c2 end))
  (at level 61, p pattern, c1 at next level, right associativity).

Fixpoint mapM {A B} (f : A -> M B) (l : list A) : M (list B) :=
  match l with
  | [] => ret []
  | x :: l' => y <- f x ;; ys <- mapM f l' ;; ret (y :: ys)
  end.

(** [np.random.seed(seed)]: the former state of the stream is lost. *)
Definition np_random_seed (seed : Z) : M unit :=
  fun _ => inr (tt, seed_state seed).

(** The samplers check their arguments before they draw. *)
Definition np_random_normal (loc scale : Q) : M Q :=
  fun s => if Qltb scale 0 then inl (ValueError "scale < 0")
           else inr (draw_normal loc scale s).

Definition np_random_gamma (shape scale : Q) : M Q :=
  fun s => if Qltb shape 0 then inl (ValueError "shape < 0")
           else if Qltb scale 0 then inl (ValueError "scale < 0")
           else inr (draw_gamma shape scale s).

Definition np_random_poisson (lam : Q) : M Z :=
  fun s => if Qltb lam 0 then inl (ValueError "lam < 0")
           else inr (draw_poisson lam s).

(** *** Sampling (the same text in both scripts) *)

(** The three statements written once for [SOL] and once for [WASO]:
    [shape = (mu / sd) ** 2], [scale = sd ** 2 / mu],
    [np.random.gamma(shape, scale)]. *)
Definition sample_gamma (mu sd : Q) : M Q :=
  q <- lift (py_div mu sd) ;;
  let shape := q ^ 2 in
  scale <- lift (py_div (sd ^ 2) mu) ;;
  np_random_gamma shape scale.

(** The sampled primitives of one participant-day. *)
Record primitives := mkPrimitives {
  lights_off_min : Q;
  sleep_end_min : Q;
  sol : Q;
  waso : Q;
  wait_time : Q }.

Definition sample_primitives (t : param_table) : M primitives :=
  '(mu_loff, sd_loff) <- lift (get_params t "Light Off") ;;
  lights_off_min <- np_random_normal mu_loff sd_loff ;;
  '(mu_send, sd_send) <- lift (get_params t "Sleep End") ;;
  sleep_end_min <- np_random_normal mu_send sd_send ;;
  '(mu_sol, sd_sol) <- lift (get_params t "SOL") ;;
  sol <- sample_gamma mu_sol sd_sol ;;
  '(mu_waso, sd_waso) <- lift (get_params t "WASO") ;;
  waso <- sample_gamma mu_waso sd_waso ;;
  w <- np_random_normal 15 10 ;;
  let wait_time := np_clip w 5 30 in
  ret (mkPrimitives lights_off_min sleep_end_min sol waso wait_time).

(** [(tst / tib) * 100 if tib > 0 else np.nan] *)
Definition sleep_efficiency (tst tib : Q) : cell :=
  if Qltb 0 tib then CNum ((tst / tib) * 100) else CNaN.

(** *** Clock columns *)

(** The lambda applied to one cell of a numeric column. *)
Definition clock_cell (c : cell) : result cell :=
  match c with
  | CNum x => inr (CStr (minutes_to_clock x))
  | CInt z => inr (CStr (minutes_to_clock (inject_Z z)))
  | CNaN => inl (ValueError "NaTType does not support strftime")
  | _ => inl (TypeError "unsupported operand type(s) for %")
  end.

(** [df[col + "_Clock"] = df[col].apply(...)]: [df[col]] raises when the
    frame has no such column, as the frame of an empty record list. *)
Definition add_clock_column (df : dataframe) (col : string) : result dataframe :=
  if has_column df col
  then res_map (fun r =>
         res_bind (getitem r col) (fun c =>
         res_bind (clock_cell c) (fun s =>
         inr (r ++ [((col ++ "_Clock")%string, s)])%list))) df
  else inl (KeyError col).

Definition add_clock_columns (df : dataframe) : result dataframe :=
  res_bind (add_clock_column df "Lights_Off") (fun df1 =>
  res_bind (add_clock_column df1 "Sleep_End") (fun df2 =>
  add_clock_column df2 "Midpoint")).

End Generators.

Notation "x <- c1 ;; c2" := (bind c1 (fun x => c2))
  (at level 61, c1 at next level, right associativity).
Notation "' p <- c1 ;; c2" := (bind c1 (fun x => match x with p => c2 end))
  (at level 61, p pattern, c1 at next level, right associativity).

(** ** JSON values and [json.dumps] *)

#[warnings="-register-all"] Inductive json :=
| JStr (s : string)
| JInt (z : Z)
| JFloat (q : Q)
| JNaN
| JObj (fields : list (string * json)).

Definition dquote : string := String (ascii_of_nat 34) EmptyString.

(** [repr] of a float that has one decimal. *)
Definition repr_float1 (q : Q) : string :=
  let k := Qfloor (q * 10) in
  let a := Z.abs k in
  ((if (k <? 0)%Z then "-" else "")
   ++ str_of_nat (Z.to_nat (a / 10)) ++ "." ++ str_of_nat (Z.to_nat (a mod 10)))%string.

(** [json.dumps] with its default separators.  The strings serialised here
    are clock strings and fixed keys, which need no escaping. *)
Fixpoint json_dumps (j : json) : string :=
  match j with
  | JStr s => (dquote ++ s ++ dquote)%string
  | JInt z => str_of_Z z
  | JFloat q => repr_float1 q
  | JNaN => "NaN"
  | JObj fields =>
      let fix members (l : list (string * json)) : string :=
        match l with
        | [] => EmptyString
        | [(k, v)] => (dquote ++ k ++ dquote ++ ": " ++ json_dumps v)%string
        | (k, v) :: l' =>
            (dquote ++ k ++ dquote ++ ": " ++ json_dumps v ++ ", " ++ members l')%string
        end in
      ("{" ++ members fields ++ "}")%string
  end.

(** ** natale2009_based_synthetic_data_generator.py *)

Module Basic.
Section Basic.
Context {L : Lib}.

(** The dict built for one participant-day, keys in insertion order. *)
Definition make_record (pid day : nat) (p : primitives) : row :=
  let out_of_bed_min := sleep_end_min p + wait_time p in
  let tib := out_of_bed_min - lights_off_min p in
  let tst := tib - (sol p + waso p) in
  let se := sleep_efficiency tst tib in
  let midpoint := (lights_off_min p + sleep_end_min p) / 2 in
  [ ("Code", CStr ("Mock_" ++ zfill 3 pid));
    ("Day", CInt (Z.of_nat day));
    ("Lights_Off", CNum (lights_off_min p));
    ("Sleep_End", CNum (sleep_end_min p));
    ("SOL", CNum (sol p));
    ("WASO", CNum (waso p));
    ("Out_of_Bed", CNum out_of_bed_min);
    ("TIB", CNum tib);
    ("TST", CNum tst);
    ("SE", se);
    ("Midpoint", CNum midpoint) ].

(** The body of the inner loop. *)
Definition simulate_day (t : param_table) (pid day : nat) : M row :=
  p <- sample_primitives t ;;
  ret (make_record pid day p).

(** The returned frame is also the table written to [output_path]. *)
Definition generate_time_series_sleepdata
    (params : param_table) (days n_participants : nat) (seed : Z)
  : M dataframe :=
  _ <- np_random_seed seed ;;
  t <- lift (normalize_params params) ;;
  records <- mapM (fun pid => mapM (simulate_day t pid) (seq 1 days))
                  (seq 1 n_participants) ;;
  lift (add_clock_columns (List.concat records)).

End Basic.
End Basic.

(** ** natale2009_advanced_generator.py *)

Module Advanced.
Section Advanced.
Context {L : Lib}.

(** [pd.to_datetime("2024-03-01")] *)
Definition start_date : date := mkDate 2024 3 1.

(** The simulated habit variables of one participant-day. *)
Record habits := mkHabits {
  sq : Z;
  rested : Z;
  physical_activity_minutes : Z;
  caffeine : Z;
  calm_down_minutes : Z }.

Definition sample_habits : M habits :=
  x_sq <- np_random_normal 7 (3 # 2) ;;
  let sq := np_clip_int (py_round x_sq) 1 10 in
  x_rested <- np_random_normal (13 # 2) (9 # 5) ;;
  let rested := np_clip_int (py_round x_rested) 1 10 in
  x_pa <- np_random_normal 50 20 ;;
  let pa := py_int (np_clip x_pa 0 180) in
  k <- np_random_poisson (6 # 5) ;;
  let caffeine := np_clip_int k 0 6 in
  x_calm <- np_random_normal 45 15 ;;
  let calm := py_int (np_clip x_calm 0 120) in
  ret (mkHabits sq rested pa caffeine calm).

(** The dict built for one participant-day, keys in insertion order. *)
Definition make_record (pid day : nat) (p : primitives) (h : habits) : row :=
  let out_of_bed_min := sleep_end_min p + wait_time p in
  let tib := out_of_bed_min - lights_off_min p in
  let twt := sol p + waso p in
  let tst := tib - (sol p + waso p) in
  let se := sleep_efficiency tst tib in
  let midpoint := (lights_off_min p + out_of_bed_min) / 2 in
  [ ("Participant", CStr ("Mock_" ++ zfill 3 pid));
    ("Email", CStr ("mock_" ++ zfill 3 pid ++ "@example.test"));
    ("Day", CStr (strftime_dmY (add_days start_date (day - 1))));
    ("Lights_Off", CNum (lights_off_min p));
    ("Sleep_End", CNum (sleep_end_min p));
    ("SOL", CNum (sol p));
    ("WASO", CNum (waso p));
    ("Out_of_Bed", CNum out_of_bed_min);
    ("TIB", CNum tib);
    ("TWT", CNum twt);
    ("TST", CNum tst);
    ("SE", se);
    ("Midpoint", CNum midpoint);
    ("SQ", CInt (sq h));
    ("Rested", CInt (rested h));
    ("Physical_Activity_Minutes", CInt (physical_activity_minutes h));
    ("Caffeine", CInt (caffeine h));
    ("Medication", CNone);
    ("time to calm down and relax", CInt (calm_down_minutes h)) ].

(** The body of the inner loop. *)
Definition simulate_day (t : param_table) (pid day : nat) : M row :=
  p <- sample_primitives t ;;
  h <- sample_habits ;;
  ret (make_record pid day p h).

(** *** The sleep block *)

(** A numeric cell as a float operand. *)
Definition cell_float (c : cell) : result Q :=
  match c with
  | CNum q => inr q
  | CInt z => inr (inject_Z z)
  | CNaN => inl (ValueError "cannot convert float NaN to integer")
  | _ => inl (TypeError "type has no numeric value")
  end.

(** [int(round(c))] *)
Definition int_round (c : cell) : result Z :=
  res_bind (cell_float c) (fun q => inr (py_round q)).

(** [round(c, 1)]: not-a-number rounds to itself. *)
Definition round1 (c : cell) : result json :=
  match c with
  | CNaN => inr JNaN
  | _ => res_bind (cell_float c) (fun q => inr (JFloat (py_round1 q)))
  end.

(** [pd.to_datetime(c % (24*60), unit='m').strftime("%H:%M")] *)
Definition clock_of (c : cell) : result string :=
  res_bind (clock_cell c) (fun s =>
  match s with CStr s => inr s | _ => inl (TypeError "not a string") end).

(** The dict [json_data] of [build_sleep_json]. *)
Definition sleep_block (r : row) : result json :=
  res_bind (getitem r "Lights_Off") (fun lo =>
  res_bind (clock_of lo) (fun start_time =>
  res_bind (getitem r "Sleep_End") (fun se =>
  res_bind (clock_of se) (fun end_time =>
  res_bind (getitem r "SOL") (fun c_sol =>
  res_bind (int_round c_sol) (fun sl =>
  res_bind (getitem r "WASO") (fun c_waso =>
  res_bind (int_round c_waso) (fun wans =>
  res_bind (cell_float c_sol) (fun q_sol =>
  res_bind (cell_float c_waso) (fun q_waso =>
  let twt := py_round (q_sol + q_waso) in
  res_bind (getitem r "TIB") (fun c_tib =>
  res_bind (int_round c_tib) (fun tib =>
  res_bind (getitem r "TST") (fun c_tst =>
  res_bind (int_round c_tst) (fun tst =>
  res_bind (getitem r "SE") (fun c_se =>
  res_bind (round1 c_se) (fun se1 =>
  inr (JObj [ ("start", JStr start_time);
              ("end", JStr end_time);
              ("totals", JObj [ ("sl", JInt sl);
                                ("wans", JInt wans);
                                ("twt", JInt twt);
                                ("tib", JInt tib);
                                ("tst", JInt tst);
                                ("se", se1) ]) ]))))))))))))))))).

Definition build_sleep_json (r : row) : result string :=
  res_bind (sleep_block r) (fun j => inr (json_dumps j)).

(** [df_with_json["Sleep_JSON"] = df_with_json.apply(build_sleep_json, axis=1)] *)
Definition with_json (df : dataframe) : result dataframe :=
  res_map (fun r =>
    res_bind (build_sleep_json r) (fun s =>
    inr (r ++ [("Sleep_JSON", CStr s)])%list)) df.

Definition sleep_vars : list string :=
  [ "Out_of_Bed"; "Midpoint"; "Lights_Off_Clock"; "Sleep_End_Clock";
    "Midpoint_Clock"; "Lights_Off"; "Sleep_End"; "SOL"; "WASO"; "TWT";
    "TIB"; "TST"; "SE" ].

Definition mem (c : string) (l : list string) : bool := existsb (String.eqb c) l.

(** [df.drop(columns=labels)]: a label that is not a column raises. *)
Definition drop_columns (df : dataframe) (labels : list string) : result dataframe :=
  match find (fun c => negb (has_column df c)) labels with
  | Some c => inl (KeyError c)
  | None => inr (map (filter (fun kv => negb (mem (fst kv) labels))) df)
  end.

(** [df[cols]]: the listed columns, in the listed order. *)
Definition select_columns (df : dataframe) (cols : list string) : result dataframe :=
  res_map (fun r =>
    res_map (fun c => res_bind (getitem r c) (fun v => inr (c, v))) cols) df.

(** The statements that prepare the second file. *)
Definition json_only (df_with_json : dataframe) : result dataframe :=
  res_bind (drop_columns df_with_json sleep_vars) (fun df_json_only =>
  let cols_order :=
    (filter (fun col => negb (String.eqb col "Sleep_JSON")) (columns df_json_only)
     ++ ["Sleep_JSON"])%list in
  select_columns df_json_only cols_order).

(** The two tables written by a run: the frame [df] (written to
    [output_path] and returned) and [df_json_only] (written next to it). *)
Definition generate_time_series_sleepdata
    (params : param_table) (days n_participants : nat) (seed : Z)
  : M (dataframe * dataframe) :=
  _ <- np_random_seed seed ;;
  t <- lift (normalize_params params) ;;
  records <- mapM (fun pid => mapM (simulate_day t pid) (seq 1 days))
                  (seq 1 n_participants) ;;
  df <- lift (add_clock_columns (List.concat records)) ;;
  df_with_json <- lift (with_json df) ;;
  df_json_only <- lift (json_only df_with_json) ;;
  ret (df, df_json_only).

End Advanced.
End Advanced.

(** ** A concrete instance of the library interface

    A counter stands for the stream: the n-th draw is a fixed function of
    the arguments and of n.  The string parser reads the clock strings
    [H:MM], [HH:MM] and [HH:MM:SS] and rejects everything else; the float
    parser reads unsigned decimal integers. *)

Module Toy.

Definition digit_of (c : ascii) : option nat :=
  let n := nat_of_ascii c in
  if ((48 <=? n) && (n <=? 57))%nat then Some (n - 48)%nat else None.

Fixpoint parse_digits (s : string) (acc : nat) : option nat :=
  match s with
  | EmptyString => Some acc
  | String c s' =>
      match digit_of c with
      | Some d => parse_digits s' (10 * acc + d)%nat
      | None => None
      end
  end.

Definition parse_nat (s : string) : option nat :=
  match s with EmptyString => None | _ => parse_digits s 0%nat end.

(** The pieces of [s] between colons. *)
Fixpoint split_colon (s : string) : list string :=
  match s with
  | EmptyString => [EmptyString]
  | String c s' =>
      if Ascii.eqb c ":"%char then EmptyString :: split_colon s'
      else match split_colon s' with
           | [] => [String c EmptyString]
           | w :: ws => String c w :: ws
           end
  end.

Definition clock_fields (h m sec : nat) : option timestamp :=
  if ((h <? 24) && (m <? 60) && (sec <? 60))%nat
  then Some (mkTimestamp 1970 1 1 (Z.of_nat h) (Z.of_nat m) (Z.of_nat sec) 0)
  else None.

Definition parse_clock (s : string) : option timestamp :=
  match split_colon s with
  | [h; m] =>
      match parse_nat h, parse_nat m with
      | Some h, Some m => clock_fields h m 0
      | _, _ => None
      end
  | [h; m; sec] =>
      match parse_nat h, parse_nat m, parse_nat sec with
      | Some h, Some m, Some sec => clock_fields h m sec
      | _, _, _ => None
      end
  | _ => None
  end.

Definition parse_float (s : string) : option Q :=
  option_map (fun n => inject_Z (Z.of_nat n)) (parse_nat s).

(** The n-th standard deviate of the toy stream: -3/4, -1/2, ..., 3/4. *)
Definition deviate (n : nat) : Q := (Z.of_nat (n mod 7) - 3) # 4.

#[global] Instance ToyLib : Lib := {|
  rng := nat;
  seed_state := fun z => Z.to_nat (Z.abs z);
  draw_normal := fun loc scale n => (Qred (loc + scale * deviate n), S n);
  draw_gamma := fun shape scale n =>
    (Qred (shape * scale * (Z.of_nat (1 + n mod 3) # 2)), S n);
  draw_poisson := fun lam n => (Z.of_nat (n mod 4), S n);
  to_datetime := parse_clock;
  float_of_str := parse_float
|}.

(** A parameter table in the shape of the input workbook. *)
Definition sample_params : param_table :=
  [ ("Light Off", (VTime (mkTime 23 30 0 0), 1));
    ("Sleep End", (VStr "07:15", 1 # 2));
    ("SOL", (VInt 20, 10));
    ("WASO", (VFloat (25 # 2), 5)) ].

(** Two participants, three days, seed 42, on the toy stream. *)
Definition advanced_views : dataframe * dataframe :=
  match Advanced.generate_time_series_sleepdata sample_params 3 2 42 0%nat with
  | inr (views, _) => views
  | inl _ => ([], [])
  end.

(** The same six records as three participants with two days each. *)
Definition reshaped_views : dataframe * dataframe :=
  match Advanced.generate_time_series_sleepdata sample_params 2 3 42 0%nat with
  | inr (views, _) => views
  | inl _ => ([], [])
  end.

(** One participant, three days. *)
Definition single_views : dataframe * dataframe :=
  match Advanced.generate_time_series_sleepdata sample_params 3 1 42 0%nat with
  | inr (views, _) => views
  | inl _ => ([], [])
  end.

Definition basic_table : dataframe :=
  match Basic.generate_time_series_sleepdata sample_params 3 2 42 0%nat with
  | inr (df, _) => df
  | inl _ => []
  end.

End Toy.


(** ** Vocabulary of the statements *)

Section Vocabulary.
Context {L : Lib}.

(** The clock reading [t] of the inputs that go through the [mins = ...]
    branches: a timestamp, a time of day, a string the parser accepts. *)
Definition clock_reading (val : pyval) : option pytime :=
  match val with
  | VTimestamp d => Some (time_of d)
  | VTime t => Some t
  | VStr s => option_map time_of (to_datetime s)
  | _ => None
  end.

(** The types the normaliser tests for. *)
Definition accepted_type (val : pyval) : bool :=
  match val with VOther _ => false | _ => true end.

(** The inputs of an accepted type on which the normaliser returns. *)
Definition normalizable (val : pyval) : bool :=
  match val with
  | VOther _ => false
  | VStr s => match to_datetime s with Some _ => true | None => false end
  | _ => true
  end.




End Vocabulary.

(** A duration as a whole number of microseconds. *)
Definition td_micros (d : timedelta) : Z :=
  ((td_days d * 86400 + td_seconds d) * 10 ^ 6 + td_microseconds d)%Z.

(** [r] stores the number [q] under [key]. *)
Definition field (r : row) (key : string) (q : Q) : Prop :=
  get r key = Some (CNum q).

(** The (participant, day) pairs in the order the nested loops visit them. *)
Definition grid (days n_participants : nat) : list (nat * nat) :=
  flat_map (fun pid => map (pair pid) (seq 1 days)) (seq 1 n_participants).

(** The three clock cells appended to a record with the given lights-off,
    sleep-end and midpoint minutes. *)
Definition clock_cells (lo se mid : Q) : row :=
  [ ("Lights_Off_Clock", CStr (minutes_to_clock lo));
    ("Sleep_End_Clock", CStr (minutes_to_clock se));
    ("Midpoint_Clock", CStr (minutes_to_clock mid)) ].

(** A row of the table of the basic script, from what was sampled for it. *)
Definition basic_row (x : nat * nat * primitives) : row :=
  let '(pid, day, p) := x in
  (Basic.make_record pid day p
   ++ clock_cells (lights_off_min p) (sleep_end_min p)
        ((lights_off_min p + sleep_end_min p) / 2))%list.

(** What the advanced script sampled for one participant-day. *)
Record day_data := mkDay {
  dd_pid : nat;
  dd_day : nat;
  dd_prims : primitives;
  dd_habits : Advanced.habits }.

Definition dd_id (x : day_data) : nat * nat := (dd_pid x, dd_day x).

Definition dd_record (x : day_data) : row :=
  Advanced.make_record (dd_pid x) (dd_day x) (dd_prims x) (dd_habits x).

(** A row of the full view. *)
Definition full_row (x : day_data) : row :=
  let p := dd_prims x in
  (dd_record x
   ++ clock_cells (lights_off_min p) (sleep_end_min p)
        ((lights_off_min p + (sleep_end_min p + wait_time p)) / 2))%list.

(** The sleep block in terms of the numeric cells of a record. *)
Definition block_of (lo se sol waso tib tst : Q) (sec : cell) : json :=
  JObj [ ("start", JStr (minutes_to_clock lo));
         ("end", JStr (minutes_to_clock se));
         ("totals",
          JObj [ ("sl", JInt (py_round sol));
                 ("wans", JInt (py_round waso));
                 ("twt", JInt (py_round (sol + waso)));
                 ("tib", JInt (py_round tib));
                 ("tst", JInt (py_round tst));
                 ("se", match sec with
                        | CNum q => JFloat (py_round1 q)
                        | _ => JNaN
                        end) ]) ].

Definition dd_block (x : day_data) : json :=
  let p := dd_prims x in
  let tib := sleep_end_min p + wait_time p - lights_off_min p in
  let tst := tib - (sol p + waso p) in
  block_of (lights_off_min p) (sleep_end_min p) (sol p) (waso p) tib tst
    (sleep_efficiency tst tib).

(** The columns of the block view. *)
Definition block_columns : list string :=
  [ "Participant"; "Email"; "Day"; "SQ"; "Rested";
    "Physical_Activity_Minutes"; "Caffeine"; "Medication";
    "time to calm down and relax"; "Sleep_JSON" ].

(** A row of the block view. *)
Definition block_row (x : day_data) : row :=
  let h := dd_habits x in
  [ ("Participant", CStr ("Mock_" ++ zfill 3 (dd_pid x)));
    ("Email", CStr ("mock_" ++ zfill 3 (dd_pid x) ++ "@example.test"));
    ("Day", CStr (strftime_dmY (add_days Advanced.start_date (dd_day x - 1))));
    ("SQ", CInt (Advanced.sq h));
    ("Rested", CInt (Advanced.rested h));
    ("Physical_Activity_Minutes", CInt (Advanced.physical_activity_minutes h));
    ("Caffeine", CInt (Advanced.caffeine h));
    ("Medication", CNone);
    ("time to calm down and relax", CInt (Advanced.calm_down_minutes h));
    ("Sleep_JSON", CStr (json_dumps (dd_block x))) ].

(** The identity cells of a row of the advanced script. *)
Definition identity (r : row) : option cell * option cell :=
  (get r "Participant", get r "Day").

(** The identity cells the advanced script writes for a participant-day. *)
Definition identity_of (id : nat * nat) : option cell * option cell :=
  (Some (CStr ("Mock_" ++ zfill 3 (fst id))),
   Some (CStr (strftime_dmY (add_days Advanced.start_date (snd id - 1))))).

(** The number stored under [key] (0 when there is none). *)
Definition num_at (key : string) (r : row) : Q :=
  match get r key with Some (CNum q) => q | _ => 0 end.

(** A row of the full view with its [Sleep_JSON] cell. *)
Definition json_row (x : day_data) : row :=
  (full_row x ++ [("Sleep_JSON", CStr (json_dumps (dd_block x)))])%list.


(** ** Vocabulary of the further statements *)

(** The value of a string of decimal digits, leading zeros allowed. *)
Definition decimal_value (s : string) : option nat :=
  option_map Nat.of_uint (NilEmpty.uint_of_string s).

(** A time of day whose hour and minute are in range, as the fields of a
    [datetime.time] or of a timestamp always are. *)
Definition valid_clock (t : pytime) : Prop :=
  (0 <= t_hour t < 24)%Z /\ (0 <= t_minute t < 60)%Z.

(** The text [HH:MM]. *)
Definition clock_string (h m : nat) : string :=
  (zfill 2 h ++ ":" ++ zfill 2 m)%string.

(** A date of the calendar. *)
Definition valid_date (d : date) : Prop :=
  (1 <= d_month d <= 12)%nat
  /\ (1 <= d_day d <= days_in_month (d_year d) (d_month d))%nat.

(** The range the wait time is clipped to. *)
Definition wait_in_range (p : primitives) : Prop :=
  5 <= wait_time p /\ wait_time p <= 30.

(** The ranges the habit variables are clipped to. *)
Definition habits_in_range (h : Advanced.habits) : Prop :=
  (1 <= Advanced.sq h <= 10)%Z
  /\ (1 <= Advanced.rested h <= 10)%Z
  /\ (0 <= Advanced.physical_activity_minutes h <= 180)%Z
  /\ (0 <= Advanced.caffeine h <= 6)%Z
  /\ (0 <= Advanced.calm_down_minutes h <= 120)%Z.

(** The columns of the table of the basic script. *)
Definition basic_columns : list string :=
  [ "Code"; "Day"; "Lights_Off"; "Sleep_End"; "SOL"; "WASO"; "Out_of_Bed";
    "TIB"; "TST"; "SE"; "Midpoint";
    "Lights_Off_Clock"; "Sleep_End_Clock"; "Midpoint_Clock" ].


(** *** The path of the second file

    [output_path.parent / f"{output_path.stem}_jsonblock_only{output_path.suffix}"],
    with pathlib's rule for the suffix of a file name: the text from the
    last dot on, when that dot is neither the first nor the last character
    of the name. *)

Record path := mkPath { parent : string; name : string }.

(** [name.rfind('.')] *)
Fixpoint rfind_dot (s : string) : option nat :=
  match s with
  | EmptyString => None
  | String c s' =>
      match rfind_dot s' with
      | Some i => Some (S i)
      | None => if Ascii.eqb c "."%char then Some 0%nat else None
      end
  end.

(** The index at which the suffix starts, when the name has one. *)
Definition suffix_start (nm : string) : option nat :=
  match rfind_dot nm with
  | Some i => if ((0 <? i) && (i <? String.length nm - 1))%nat then Some i else None
  | None => None
  end.

Definition suffix (nm : string) : string :=
  match suffix_start nm with
  | Some i => substring i (String.length nm - i) nm
  | None => EmptyString
  end.

Definition stem (nm : string) : string :=
  match suffix_start nm with
  | Some i => substring 0 i nm
  | None => nm
  end.

Definition jsonblock_path (output_path : path) : path :=
  mkPath (parent output_path)
         (stem (name output_path) ++ "_jsonblock_only" ++ suffix (name output_path)).

Section Flattened.
Context {L : Lib}.

(** What the two loops draw for one participant-day, without the record
    built from it. *)
Definition sample_day (t : param_table) (id : nat * nat) : M day_data :=
  p <- sample_primitives t ;;
  h <- Advanced.sample_habits ;;
  ret (mkDay (fst id) (snd id) p h).

Definition sample_basic_day (t : param_table) (id : nat * nat)
  : M (nat * nat * primitives) :=
  p <- sample_primitives t ;;
  ret (fst id, snd id, p).

(** The outcome of a computation with its value mapped. *)
Definition on_value {A B} (h : A -> B) (r : result (A * rng)) : result (B * rng) :=
  match r with
  | inl e => inl e
  | inr (a, s) => inr (h a, s)
  end.

End Flattened.

(** * Time normalisation *)

Section NormalizerFacts.
Context {L : Lib}.

Lemma wrap_evening_off (mins : Z) : wrap_evening false mins = inject_Z mins.
Proof. reflexivity. Qed.


Lemma convert_clock_reading (val : pyval) (t : pytime) (b : bool) :
  clock_reading val = Some t ->
  convert_time_to_minutes val b
  = inr (wrap_evening b (t_hour t * 60 + t_minute t)).
Proof.
  destruct val; simpl; intros H; try discriminate.
  - injection H as <-. reflexivity.
  - injection H as <-. reflexivity.
  - destruct (to_datetime s); simpl in H; [injection H as <- | discriminate].
    reflexivity.
Qed.



(** C4 (as amended).  The normaliser raises the type-mismatch error exactly
    on a value that is none of timestamp, time of day, duration, string or
    number; it returns a value exactly on the accepted types other than a
    string the parser rejects, and on such a string it raises the parser's
    error, which is not a type mismatch. *)
Theorem type_mismatch_iff_unaccepted (val : pyval) (b : bool) :
  ((exists msg, convert_time_to_minutes val b = inl (TypeError msg))
   <-> accepted_type val = false)
  /\ ((exists m, convert_time_to_minutes val b = inr m)
      <-> normalizable val = true)
  /\ (accepted_type val = true /\ normalizable val = false
      <-> exists s, val = VStr s /\ to_datetime s = None
                    /\ exists msg, convert_time_to_minutes val b = inl (ValueError msg)).
Proof.
  destruct val; simpl.
  all: try (split; [split; [intros [? ?]; discriminate | discriminate]
                   | split; [split; [reflexivity | eauto]
                            | split; [intros [_ ?]; discriminate
                                     | intros (? & ? & _); discriminate]]]).
  - (* VStr *)
    destruct (to_datetime s) eqn:E.
    + split; [split; [intros [? ?]; discriminate | discriminate]|].
      split; [split; [reflexivity | eauto]|].
      split; [intros [_ ?]; discriminate|].
      intros (s' & Hs & Hn & _). injection Hs as <-. congruence.
    + split; [split; [intros [? ?]; discriminate | discriminate]|].
      split; [split; [intros [? ?]; discriminate | discriminate]|].
      split; [| auto].
      intros _. exists s. repeat split; eauto.
  - (* VOther *)
    split; [split; [reflexivity | eauto]|].
    split; [split; [intros [? ?]; discriminate | discriminate]|].
    split; [intros [? _]; discriminate | intros (? & ? & _); discriminate].
Qed.

Lemma inject_Z_div_inj (a b c : Z) :
  (0 < c)%Z -> inject_Z a / inject_Z c / 60 == inject_Z b / inject_Z c / 60 -> a = b.
Proof.
  intros Hc H.
  assert (Hc' : ~ inject_Z c == 0).
  { intros E. unfold Qeq in E; simpl in E. lia. }
  assert (E : inject_Z a == inject_Z b).
  { setoid_replace (inject_Z a) with (inject_Z a / inject_Z c / 60 * (60 * inject_Z c))
      by (field; exact Hc').
    rewrite H. field. exact Hc'. }
  unfold Qeq in E; simpl in E. lia.
Qed.

(** C10.  A timestamp, a time of day and a parseable string normalise to a
    value computed from the hour and the minute alone, so two such inputs
    with the same hour and minute (whatever their seconds, microseconds or
    date) give the same result; a duration gives its total seconds divided
    by 60, which keeps the fraction of a minute: two durations give equal
    results only when they have the same length to the microsecond, and 90
    seconds give 3/2. *)
Theorem seconds_discarded_except_durations :
  (forall (v1 v2 : pyval) (t1 t2 : pytime) (b : bool),
     clock_reading v1 = Some t1 -> clock_reading v2 = Some t2 ->
     t_hour t1 = t_hour t2 -> t_minute t1 = t_minute t2 ->
     convert_time_to_minutes v1 b = convert_time_to_minutes v2 b
     /\ convert_time_to_minutes v1 false
        = inr (inject_Z (t_hour t1 * 60 + t_minute t1)))
  /\ (forall (d : timedelta) (b : bool),
        convert_time_to_minutes (VTimedelta d) b = inr (total_seconds d / 60))
  /\ (forall d1 d2 : timedelta,
        total_seconds d1 / 60 == total_seconds d2 / 60 ->
        td_micros d1 = td_micros d2)
  /\ total_seconds (mkTimedelta 0 90 0) / 60 == 3 # 2.
Proof.
  split; [| split; [| split]].
  - intros v1 v2 t1 t2 b H1 H2 Hh Hm.
    rewrite (convert_clock_reading _ _ b H1), (convert_clock_reading _ _ b H2).
    rewrite (convert_clock_reading _ _ false H1), Hh, Hm. split; reflexivity.
  - reflexivity.
  - intros d1 d2 H. unfold total_seconds in H.
    apply inject_Z_div_inj in H; [exact H | reflexivity].
  - reflexivity.
Qed.

End NormalizerFacts.


(** C4, as stated, fails on a string: its type is accepted, and the
    normaliser raises all the same when the parser rejects the text. *)
Lemma unparseable_string_raises :
  accepted_type (VStr "abc") = true
  /\ convert_time_to_minutes (VStr "abc") false
     = inl (ValueError "Unknown datetime string format: abc")
  /\ forall m, convert_time_to_minutes (VStr "abc") false <> inr m.
Proof.
  split; [reflexivity|]. split; [reflexivity|]. intros m; discriminate.
Qed.

Lemma seconds_discarded_witness :
  convert_time_to_minutes (VTime (mkTime 23 30 0 0)) true
  = convert_time_to_minutes (VStr "23:30:59") true
  /\ convert_time_to_minutes (VTime (mkTime 23 30 0 0)) false
     = inr (inject_Z (23 * 60 + 30)).
Proof.
  exact (proj1 (@seconds_discarded_except_durations Toy.ToyLib)
           (VTime (mkTime 23 30 0 0)) (VStr "23:30:59")
           (mkTime 23 30 0 0) (mkTime 23 30 59 0) true
           eq_refl eq_refl eq_refl eq_refl).
Defined.

(** * Clock formatting *)




Lemma py_mod_comp (x y m : Q) : x == y -> py_mod x m == py_mod y m.
Proof.
  intros E. unfold py_mod.
  assert (F : Qfloor (x / m) = Qfloor (y / m)).
  { apply Qfloor_comp. now rewrite E. }
  rewrite F. now rewrite E.
Qed.





Lemma strftime_HM_comp (x y : Q) : x == y -> strftime_HM x = strftime_HM y.
Proof. intros E. unfold strftime_HM. rewrite (Qfloor_comp _ _ E). reflexivity. Qed.

Lemma minutes_to_clock_comp (x y : Q) :
  x == y -> minutes_to_clock x = minutes_to_clock y.
Proof.
  intros E. unfold minutes_to_clock. apply strftime_HM_comp, py_mod_comp, E.
Qed.



(** * The generators *)

Section GeneratorFacts.
Context {L : Lib}.

(** ** Loops *)

Lemma mapM_inv {A B} (f : A -> M B) (l : list A) s ys s' :
  mapM f l s = inr (ys, s') ->
  Forall2 (fun x y => exists s1 s2, f x s1 = inr (y, s2)) l ys.
Proof.
  revert s ys s'. induction l as [|x l IH]; intros s ys s' H.
  - cbn in H. injection H as <- _. constructor.
  - cbn in H. unfold bind in H.
    destruct (f x s) as [e|[y s1]] eqn:Ef; [discriminate|].
    destruct (mapM f l s1) as [e|[ys' s2]] eqn:El; [discriminate|].
    cbn in H. injection H as <- _.
    constructor; [eauto | eapply IH; eassumption].
Qed.

Lemma Forall2_grid {B} (Q : nat -> nat -> B -> Prop)
      (pids days : list nat) (rss : list (list B)) :
  Forall2 (fun pid rs => Forall2 (Q pid) days rs) pids rss ->
  Forall2 (fun id r => Q (fst id) (snd id) r)
          (flat_map (fun pid => map (pair pid) days) pids) (List.concat rss).
Proof.
  induction 1 as [|pid rs pids rss H _ IH]; cbn; [constructor|].
  apply Forall2_app; [| exact IH].
  clear IH. induction H; cbn; constructor; assumption.
Qed.

Lemma nested_loops_inv {B} (body : nat -> nat -> M B) (Q : nat -> nat -> B -> Prop)
      (days n : nat) s rss s' :
  (forall pid day s1 r s2, body pid day s1 = inr (r, s2) -> Q pid day r) ->
  mapM (fun pid => mapM (body pid) (seq 1 days)) (seq 1 n) s = inr (rss, s') ->
  Forall2 (fun id r => Q (fst id) (snd id) r) (grid days n) (List.concat rss).
Proof.
  intros HQ H. apply Forall2_grid.
  apply mapM_inv in H.
  eapply Forall2_impl; [| exact H].
  intros pid rs (s1 & s2 & Hin). apply mapM_inv in Hin.
  eapply Forall2_impl; [| exact Hin].
  intros day r (s3 & s4 & Hb). eapply HQ, Hb.
Qed.

Lemma res_map_ext {A B} (f : A -> result B) (g : A -> B) (l : list A) :
  (forall x, In x l -> f x = inr (g x)) -> res_map f l = inr (map g l).
Proof.
  induction l as [|x l IH]; intros H; cbn; [reflexivity|].
  rewrite (H x (or_introl eq_refl)). cbn.
  rewrite IH by (intros y Hy; apply H; right; exact Hy). reflexivity.
Qed.

Lemma grid_length (days n : nat) : List.length (grid days n) = (n * days)%nat.
Proof.
  unfold grid. generalize 1%nat at 2.
  induction n as [|n IH]; intros a; cbn; [reflexivity|].
  rewrite length_app, length_map, length_seq, IH. reflexivity.
Qed.

Lemma grid_from_nth (days n a p d : nat) :
  (p < n)%nat -> (d < days)%nat ->
  nth_error (flat_map (fun pid => map (pair pid) (seq 1 days)) (seq a n))
            (p * days + d)
  = Some ((a + p)%nat, S d).
Proof.
  revert a p. induction n as [|n IH]; intros a p Hp Hd; [lia|].
  cbn [seq flat_map]. destruct p as [|p].
  - rewrite nth_error_app1 by (rewrite length_map, length_seq; cbn; lia).
    cbn [Nat.mul Nat.add]. rewrite nth_error_map.
    rewrite (nth_error_nth' _ 0%nat) by (rewrite length_seq; lia).
    rewrite seq_nth by lia. cbn. rewrite Nat.add_0_r. reflexivity.
  - rewrite nth_error_app2 by (rewrite length_map, length_seq; cbn; lia).
    rewrite length_map, length_seq.
    replace (S p * days + d - days)%nat with (p * days + d)%nat by (cbn; lia).
    rewrite IH by lia. f_equal. f_equal. lia.
Qed.

(** Row [p * days + d] of the loops belongs to participant [p + 1] and day
    [d + 1]. *)
Lemma grid_nth (days n p d : nat) :
  (p < n)%nat -> (d < days)%nat ->
  nth_error (grid days n) (p * days + d) = Some (S p, S d).
Proof. intros Hp Hd. unfold grid. rewrite grid_from_nth by assumption. reflexivity. Qed.


End GeneratorFacts.

Section ShapeOfRuns.
Context {L : Lib}.

Ltac step H :=
  match type of H with
  | context [match ?c with _ => _ end] =>
      let E := fresh "E" in destruct c eqn:E; try discriminate H
  end.

(** ** One participant-day *)

Lemma np_clip_bounds (x lo hi : Q) :
  lo <= hi -> lo <= np_clip x lo hi /\ np_clip x lo hi <= hi.
Proof.
  intros H. unfold np_clip. split.
  - apply Q.min_glb; [apply Q.le_max_r | exact H].
  - apply Q.le_min_r.
Qed.

Lemma sample_primitives_wait (t : param_table) s p s' :
  sample_primitives t s = inr (p, s') ->
  5 <= wait_time p /\ wait_time p <= 30.
Proof.
  unfold sample_primitives, bind, ret. intros H.
  repeat step H.
  injection H as <- _. cbn [wait_time]. apply np_clip_bounds. discriminate.
Qed.


Lemma advanced_simulate_day_inv t pid day s1 r s2 :
  Advanced.simulate_day t pid day s1 = inr (r, s2) ->
  exists p h, r = Advanced.make_record pid day p h.
Proof.
  unfold Advanced.simulate_day, bind, ret. intros H.
  destruct (sample_primitives t s1) as [e|[p s]]; [discriminate|].
  destruct (Advanced.sample_habits s) as [e|[h s3]]; [discriminate|].
  injection H as <- _. eauto.
Qed.


Lemma advanced_rows_of_grid (ids : list (nat * nat)) (rows : list row) :
  Forall2 (fun id r => exists p h, r = Advanced.make_record (fst id) (snd id) p h)
          ids rows ->
  exists recs : list day_data,
    map dd_id recs = ids /\ rows = map dd_record recs.
Proof.
  induction 1 as [|[pid day] r ids rows (p & h & ->) _ (recs & <- & ->)].
  - exists []. split; reflexivity.
  - exists (mkDay pid day p h :: recs). split; reflexivity.
Qed.

(** ** Clock columns *)

Lemma add_clock_column_ok (df : dataframe) (col : string) :
  has_column df col = true ->
  (forall r, In r df -> exists q, get r col = Some (CNum q)) ->
  add_clock_column df col
  = inr (map (fun r => r ++ [((col ++ "_Clock")%string,
                              CStr (minutes_to_clock (num_at col r)))])%list df).
Proof.
  intros Hc Hr. unfold add_clock_column. rewrite Hc.
  apply res_map_ext. intros r Hin. destruct (Hr r Hin) as [q Hq].
  unfold getitem, num_at. rewrite Hq. reflexivity.
Qed.

Lemma add_clock_columns_nil : add_clock_columns [] = inl (KeyError "Lights_Off").
Proof. reflexivity. Qed.

Lemma add_clock_columns_basic (recs : list (nat * nat * primitives)) :
  recs <> [] ->
  add_clock_columns
    (map (fun x => Basic.make_record (fst (fst x)) (snd (fst x)) (snd x)) recs)
  = inr (map basic_row recs).
Proof.
  intros Hne. destruct recs as [|x0 recs]; [congruence|].
  unfold add_clock_columns.
  rewrite add_clock_column_ok;
    [| reflexivity
     | intros r Hin; apply in_map_iff in Hin; destruct Hin as (x & <- & _);
       eexists; reflexivity ].
  cbn [res_bind]. rewrite map_map.
  rewrite add_clock_column_ok;
    [| reflexivity
     | intros r Hin; apply in_map_iff in Hin; destruct Hin as (x & <- & _);
       eexists; reflexivity ].
  cbn [res_bind]. rewrite map_map.
  rewrite add_clock_column_ok;
    [| reflexivity
     | intros r Hin; apply in_map_iff in Hin; destruct Hin as (x & <- & _);
       eexists; reflexivity ].
  rewrite map_map. apply f_equal. apply map_ext. intros [[pid day] p]. reflexivity.
Qed.

Lemma add_clock_columns_advanced (recs : list day_data) :
  recs <> [] ->
  add_clock_columns (map dd_record recs) = inr (map full_row recs).
Proof.
  intros Hne. destruct recs as [|x0 recs]; [congruence|].
  unfold add_clock_columns.
  rewrite add_clock_column_ok;
    [| reflexivity
     | intros r Hin; apply in_map_iff in Hin; destruct Hin as (x & <- & _);
       eexists; reflexivity ].
  cbn [res_bind]. rewrite map_map.
  rewrite add_clock_column_ok;
    [| reflexivity
     | intros r Hin; apply in_map_iff in Hin; destruct Hin as (x & <- & _);
       eexists; reflexivity ].
  cbn [res_bind]. rewrite map_map.
  rewrite add_clock_column_ok;
    [| reflexivity
     | intros r Hin; apply in_map_iff in Hin; destruct Hin as (x & <- & _);
       eexists; reflexivity ].
  rewrite map_map. apply f_equal. apply map_ext. intros x. reflexivity.
Qed.

End ShapeOfRuns.

Section BlockView.
Context {L : Lib}.

Lemma sleep_efficiency_cases (tst tib : Q) :
  sleep_efficiency tst tib = CNaN
  \/ exists q, sleep_efficiency tst tib = CNum q.
Proof. unfold sleep_efficiency. destruct (Qltb 0 tib); eauto. Qed.

(** The sleep block of any row that stores the numeric sleep cells. *)
Lemma sleep_block_of_fields (r : row) (lo se sol waso tib tst : Q) (sec : cell) :
  field r "Lights_Off" lo -> field r "Sleep_End" se ->
  field r "SOL" sol -> field r "WASO" waso ->
  field r "TIB" tib -> field r "TST" tst ->
  get r "SE" = Some sec ->
  (sec = CNaN \/ exists q, sec = CNum q) ->
  Advanced.sleep_block r = inr (block_of lo se sol waso tib tst sec).
Proof.
  unfold field. intros Hlo Hse Hsol Hwaso Htib Htst Hsec Hcases.
  unfold Advanced.sleep_block, getitem.
  rewrite Hlo, Hse, Hsol, Hwaso, Htib, Htst, Hsec.
  destruct Hcases as [-> | [q ->]]; reflexivity.
Qed.

Lemma full_row_sleep_block (x : day_data) :
  Advanced.sleep_block (full_row x) = inr (dd_block x).
Proof.
  exact (sleep_block_of_fields (full_row x)
           (lights_off_min (dd_prims x)) (sleep_end_min (dd_prims x))
           (sol (dd_prims x)) (waso (dd_prims x))
           (sleep_end_min (dd_prims x) + wait_time (dd_prims x)
            - lights_off_min (dd_prims x))
           (sleep_end_min (dd_prims x) + wait_time (dd_prims x)
            - lights_off_min (dd_prims x)
            - (sol (dd_prims x) + waso (dd_prims x)))
           (sleep_efficiency
              (sleep_end_min (dd_prims x) + wait_time (dd_prims x)
               - lights_off_min (dd_prims x)
               - (sol (dd_prims x) + waso (dd_prims x)))
              (sleep_end_min (dd_prims x) + wait_time (dd_prims x)
               - lights_off_min (dd_prims x)))
           eq_refl eq_refl eq_refl eq_refl eq_refl eq_refl eq_refl
           (sleep_efficiency_cases _ _)).
Qed.

Lemma full_row_block (x : day_data) :
  Advanced.build_sleep_json (full_row x) = inr (json_dumps (dd_block x)).
Proof.
  unfold Advanced.build_sleep_json. rewrite full_row_sleep_block. reflexivity.
Qed.

Lemma with_json_rows (recs : list day_data) :
  Advanced.with_json (map full_row recs) = inr (map json_row recs).
Proof.
  unfold Advanced.with_json.
  rewrite (res_map_ext _
             (fun r => (r ++ [("Sleep_JSON",
                               CStr (json_dumps
                                       (match Advanced.sleep_block r with
                                        | inr j => j
                                        | inl _ => JNaN
                                        end)))])%list)).
  - rewrite map_map. apply f_equal, map_ext. intros x. unfold json_row.
    rewrite full_row_sleep_block. reflexivity.
  - intros r Hin. apply in_map_iff in Hin. destruct Hin as (x & <- & _).
    unfold Advanced.build_sleep_json. rewrite full_row_sleep_block. reflexivity.
Qed.

Lemma json_only_rows (recs : list day_data) :
  recs <> [] ->
  Advanced.json_only (map json_row recs) = inr (map block_row recs).
Proof.
  intros Hne. destruct recs as [|x0 recs]; [congruence|].
  unfold Advanced.json_only.
  assert (Hd : Advanced.drop_columns (map json_row (x0 :: recs)) Advanced.sleep_vars
               = inr (map block_row (x0 :: recs))).
  { unfold Advanced.drop_columns.
    change (find (fun c => negb (has_column (map json_row (x0 :: recs)) c))
                 Advanced.sleep_vars) with (@None string).
    rewrite map_map. apply f_equal, map_ext. intros x. reflexivity. }
  rewrite Hd. cbn [res_bind].
  unfold Advanced.select_columns.
  rewrite (res_map_ext _ (fun r => r)).
  - rewrite map_id. reflexivity.
  - intros r Hin. apply in_map_iff in Hin. destruct Hin as (x & <- & _).
    reflexivity.
Qed.

End BlockView.

Section Runs.
Context {L : Lib}.


(** What a completed run of the advanced script writes. *)
Lemma advanced_run_shape params days n seed s0 df blk s1 :
  Advanced.generate_time_series_sleepdata params days n seed s0
  = inr ((df, blk), s1) ->
  exists recs : list day_data,
    map dd_id recs = grid days n
    /\ df = map full_row recs /\ blk = map block_row recs.
Proof.
  unfold Advanced.generate_time_series_sleepdata, bind, np_random_seed, lift, ret.
  intros H.
  destruct (normalize_params params) as [e|t]; [discriminate|].
  destruct (mapM _ _ _) as [e|[rss s2]] eqn:Eloop; [discriminate|].
  apply (nested_loops_inv (Advanced.simulate_day t)
           (fun pid day r => exists p h, r = Advanced.make_record pid day p h))
    in Eloop; [| intros; eapply advanced_simulate_day_inv; eassumption].
  apply advanced_rows_of_grid in Eloop. destruct Eloop as (recs & Hids & Hrows).
  rewrite Hrows in H. exists recs. split; [exact Hids|].
  destruct recs as [|x recs].
  - cbn in H. discriminate.
  - rewrite add_clock_columns_advanced in H by discriminate.
    rewrite with_json_rows in H.
    rewrite json_only_rows in H by discriminate.
    injection H as <- <- _. split; reflexivity.
Qed.

End Runs.

(** * Derived metrics *)

Lemma Qltb_lt (x y : Q) : Qltb x y = true <-> x < y.
Proof.
  unfold Qltb. rewrite negb_true_iff, <- not_true_iff_false, Qle_bool_iff.
  split; [apply Qnot_le_lt | apply Qlt_not_le].
Qed.

Lemma Qltb_ge (x y : Q) : Qltb x y = false <-> y <= x.
Proof.
  unfold Qltb. rewrite negb_false_iff. apply Qle_bool_iff.
Qed.







(** * Gamma sampling *)

Lemma Qsquare_pos (x : Q) : ~ x == 0 -> 0 < x ^ 2.
Proof.
  intros H. change (x ^ 2) with (x * x).
  destruct (Qlt_le_dec 0 x) as [Hp|Hn].
  - apply Qmult_lt_0_compat; assumption.
  - assert (Hneg : x < 0) by (apply Qle_lteq in Hn; destruct Hn; [assumption | contradiction]).
    setoid_replace (x * x) with ((- x) * (- x)) by ring.
    apply Qmult_lt_0_compat; lra.
Qed.

Lemma Qsquare_nonneg (x : Q) : 0 <= x ^ 2.
Proof.
  change (x ^ 2) with (x * x).
  destruct (Qlt_le_dec 0 x) as [Hp|Hn].
  - apply Qmult_le_0_compat; lra.
  - setoid_replace (x * x) with ((- x) * (- x)) by ring.
    apply Qmult_le_0_compat; lra.
Qed.

Lemma Qeq_bool_false (x y : Q) : ~ x == y -> Qeq_bool x y = false.
Proof.
  intros H. destruct (Qeq_bool x y) eqn:E; [| reflexivity].
  apply Qeq_bool_eq in E. contradiction.
Qed.

Section GammaSampler.
Context {L : Lib}.

Lemma sample_gamma_zero (mu sd : Q) (s : rng) :
  sd == 0 \/ mu == 0 -> sample_gamma mu sd s = inl ZeroDivisionError.
Proof.
  unfold sample_gamma, bind, lift, py_div. intros [H|H].
  - rewrite (Qeq_eq_bool _ _ H). reflexivity.
  - destruct (Qeq_bool sd 0); [reflexivity|].
    rewrite (Qeq_eq_bool _ _ H). reflexivity.
Qed.

Lemma sample_gamma_negative_mean (mu sd : Q) (s : rng) :
  ~ sd == 0 -> mu < 0 -> sample_gamma mu sd s = inl (ValueError "scale < 0").
Proof.
  unfold sample_gamma, bind, lift, py_div, np_random_gamma. intros Hsd Hmu.
  rewrite (Qeq_bool_false _ _ Hsd).
  rewrite (Qeq_bool_false mu 0) by lra.
  rewrite (proj2 (Qltb_ge _ _) (Qsquare_nonneg (mu / sd))).
  assert (Hneg : sd ^ 2 / mu < 0).
  { pose proof (Qsquare_pos sd Hsd) as Hp.
    setoid_replace (sd ^ 2 / mu) with (- (sd ^ 2 / - mu)) by (field; lra).
    assert (0 < sd ^ 2 / - mu) by (apply Qlt_shift_div_l; lra). lra. }
  rewrite (proj2 (Qltb_lt _ _) Hneg). reflexivity.
Qed.

Lemma sample_gamma_draws (mu sd : Q) (s : rng) :
  ~ sd == 0 -> 0 < mu ->
  sample_gamma mu sd s = inr (draw_gamma ((mu / sd) ^ 2) (sd ^ 2 / mu) s).
Proof.
  unfold sample_gamma, bind, lift, py_div, np_random_gamma. intros Hsd Hmu.
  rewrite (Qeq_bool_false _ _ Hsd).
  rewrite (Qeq_bool_false mu 0) by lra.
  rewrite (proj2 (Qltb_ge _ _) (Qsquare_nonneg (mu / sd))).
  assert (Hpos : 0 <= sd ^ 2 / mu).
  { pose proof (Qsquare_pos sd Hsd) as Hp.
    apply Qlt_le_weak, Qlt_shift_div_l; lra. }
  rewrite (proj2 (Qltb_ge _ _) Hpos). reflexivity.
Qed.

(** C2 (as amended).  The moment-matched Gamma sampler has no guard of its
    own.  A zero SD or a zero mean makes the division that computes the shape
    or the scale raise before any draw; a negative mean (SD not zero) gives a
    negative scale, which the library sampler rejects before drawing; a
    positive mean with any non-zero SD, negative ones included, draws with
    shape (mean/SD)^2 and scale SD^2/mean. *)
Theorem gamma_sampler_parameter_cases (mu sd : Q) (s : rng) :
  (sd == 0 \/ mu == 0 -> sample_gamma mu sd s = inl ZeroDivisionError)
  /\ (~ sd == 0 -> mu < 0 -> sample_gamma mu sd s = inl (ValueError "scale < 0"))
  /\ (~ sd == 0 -> 0 < mu ->
      sample_gamma mu sd s = inr (draw_gamma ((mu / sd) ^ 2) (sd ^ 2 / mu) s)).
Proof.
  split; [apply sample_gamma_zero|].
  split; [apply sample_gamma_negative_mean | apply sample_gamma_draws].
Qed.

End GammaSampler.

(** * Midpoint *)


(** * Determinism *)

(** C8.  The outcome of a run (both tables, or the error, and the final
    state of the stream) is a function of the seed, the parameter table, the
    day count and the participant count: whatever the state of the global
    stream before the call, two runs with the same arguments give the same
    outcome.  This rests on the first statement of each script, which
    replaces the state of the stream by the seeded one. *)
Theorem same_seed_same_tables `{L : Lib}
    (params : param_table) (days n : nat) (seed : Z) (s1 s2 : rng) :
  Basic.generate_time_series_sleepdata params days n seed s1
  = Basic.generate_time_series_sleepdata params days n seed s2
  /\ Advanced.generate_time_series_sleepdata params days n seed s1
     = Advanced.generate_time_series_sleepdata params days n seed s2.
Proof. split; reflexivity. Qed.

(** * The sleep block and the two views *)

Lemma nth_error_full_block (recs : list day_data) (i : nat) (r b : row) :
  nth_error (map full_row recs) i = Some r ->
  nth_error (map block_row recs) i = Some b ->
  exists x, r = full_row x /\ b = block_row x.
Proof.
  rewrite !nth_error_map. destruct (nth_error recs i) as [x|]; cbn; [| discriminate].
  intros [= <-] [= <-]. eauto.
Qed.

(** C6.  For the i-th record of a completed run of the advanced script and
    the i-th row of the block view, the serialised block of that row is the
    block built from the record's cells: start and end are the clock strings
    of Lights_Off and Sleep_End (reduced modulo 1440, the strings of the
    record's own clock columns), sl, wans, twt, tib and
    tst are round(SOL), round(WASO), round(SOL + WASO), round(TIB) and
    round(TST) as integers, and se is SE rounded to one decimal (NaN stays
    NaN). *)
Theorem sleep_block_totals_are_rounded_fields `{L : Lib}
    params days n seed s0 df blk s1 :
  Advanced.generate_time_series_sleepdata params days n seed s0
  = inr ((df, blk), s1) ->
  List.length blk = List.length df
  /\ forall (i : nat) (r b : row),
       nth_error df i = Some r -> nth_error blk i = Some b ->
       exists (lo se sol waso tib tst : Q) (sec : cell),
         field r "Lights_Off" lo /\ field r "Sleep_End" se
         /\ field r "SOL" sol /\ field r "WASO" waso
         /\ field r "TIB" tib /\ field r "TST" tst
         /\ get r "SE" = Some sec
         /\ get r "Lights_Off_Clock" = Some (CStr (minutes_to_clock lo))
         /\ get r "Sleep_End_Clock" = Some (CStr (minutes_to_clock se))
         /\ Advanced.sleep_block r
            = inr (JObj [ ("start", JStr (minutes_to_clock lo));
                          ("end", JStr (minutes_to_clock se));
                          ("totals",
                           JObj [ ("sl", JInt (py_round sol));
                                  ("wans", JInt (py_round waso));
                                  ("twt", JInt (py_round (sol + waso)));
                                  ("tib", JInt (py_round tib));
                                  ("tst", JInt (py_round tst));
                                  ("se", match sec with
                                         | CNum q => JFloat (py_round1 q)
                                         | _ => JNaN
                                         end) ]) ])
         /\ Advanced.build_sleep_json r
            = inr (json_dumps (block_of lo se sol waso tib tst sec))
         /\ get b "Sleep_JSON"
            = Some (CStr (json_dumps (block_of lo se sol waso tib tst sec))).
Proof.
  intros H. apply advanced_run_shape in H. destruct H as (recs & _ & -> & ->).
  split; [rewrite !length_map; reflexivity|].
  intros i r b Hr Hb.
  destruct (nth_error_full_block _ _ _ _ Hr Hb) as (x & -> & ->).
  pose (p := dd_prims x).
  exists (lights_off_min p), (sleep_end_min p), (sol p), (waso p),
         (sleep_end_min p + wait_time p - lights_off_min p),
         (sleep_end_min p + wait_time p - lights_off_min p - (sol p + waso p)),
         (sleep_efficiency
            (sleep_end_min p + wait_time p - lights_off_min p - (sol p + waso p))
            (sleep_end_min p + wait_time p - lights_off_min p)).
  repeat (split; [reflexivity|]).
  pose proof (full_row_sleep_block x) as Hb'.
  split; [exact Hb'|]. split; [| reflexivity].
  unfold Advanced.build_sleep_json. rewrite Hb'. reflexivity.
Qed.

Lemma block_row_has_no_sleep_column (x : day_data) (c : string) :
  In c Advanced.sleep_vars -> get (block_row x) c = None.
Proof.
  unfold Advanced.sleep_vars. cbn [In]. intros H.
  repeat (destruct H as [<-|H]; [reflexivity|]). contradiction.
Qed.

(** C7.  A completed run of the advanced script with P participants and D
    days writes two views of P*D rows each, both in the order of the nested
    loops (participants outermost, days innermost: row p*D + d is day d+1 of
    participant p+1); a row of the block view
    has the identity and habit columns followed by Sleep_JSON as its last
    column, with the cells of the full view in the columns they share, and
    none of the numeric or clock-formatted sleep columns. *)
Theorem views_have_PD_rows_in_loop_order `{L : Lib}
    params (D P : nat) seed s0 df blk s1 :
  Advanced.generate_time_series_sleepdata params D P seed s0
  = inr ((df, blk), s1) ->
  List.length df = (P * D)%nat
  /\ List.length blk = (P * D)%nat
  /\ map identity df = map identity_of (grid D P)
  /\ map identity blk = map identity_of (grid D P)
  /\ (forall p d, (p < P)%nat -> (d < D)%nat ->
      exists r b,
        nth_error df (p * D + d) = Some r /\ nth_error blk (p * D + d) = Some b
        /\ identity r = identity_of (S p, S d)
        /\ identity b = identity_of (S p, S d))
  /\ Forall (fun b => map fst b = block_columns) blk
  /\ Forall (fun b => last (map fst b) EmptyString = "Sleep_JSON"%string) blk
  /\ Forall (fun b => forall c, In c Advanced.sleep_vars -> get b c = None) blk
  /\ (forall i r b c,
        nth_error df i = Some r -> nth_error blk i = Some b ->
        In c block_columns -> c <> "Sleep_JSON"%string -> get b c = get r c).
Proof.
  intros H. apply advanced_run_shape in H. destruct H as (recs & Hids & -> & ->).
  assert (Hlen : List.length recs = (P * D)%nat).
  { rewrite <- (length_map dd_id), Hids. apply grid_length. }
  split; [rewrite length_map; exact Hlen|].
  split; [rewrite length_map; exact Hlen|].
  split; [rewrite <- Hids, !map_map; apply map_ext; intros x; reflexivity|].
  split; [rewrite <- Hids, !map_map; apply map_ext; intros x; reflexivity|].
  split.
  { intros p d Hp Hd. pose proof (grid_nth D P p d Hp Hd) as Hn.
    rewrite <- Hids, nth_error_map in Hn.
    destruct (nth_error recs (p * D + d)) as [x|] eqn:Ex; [| discriminate].
    cbn in Hn. injection Hn as Hx Hy.
    exists (full_row x), (block_row x). rewrite !nth_error_map, Ex.
    repeat split; rewrite <- Hx, <- Hy; reflexivity. }
  split; [apply Forall_forall; intros b Hin; apply in_map_iff in Hin;
          destruct Hin as (x & <- & _); reflexivity|].
  split; [apply Forall_forall; intros b Hin; apply in_map_iff in Hin;
          destruct Hin as (x & <- & _); reflexivity|].
  split; [apply Forall_forall; intros b Hin; apply in_map_iff in Hin;
          destruct Hin as (x & <- & _); intros c;
          apply block_row_has_no_sleep_column|].
  intros i r b c Hr Hb Hc Hne.
  destruct (nth_error_full_block _ _ _ _ Hr Hb) as (x & -> & ->).
  unfold block_columns in Hc. cbn [In] in Hc.
  repeat (destruct Hc as [<-|Hc]; [first [reflexivity | congruence]|]).
  contradiction.
Qed.

Lemma mapM_all_nil `{L : Lib} {A B} (f : A -> M (list B)) (l : list A) s :
  (forall x s', f x s' = inr ([], s')) ->
  exists rss, mapM f l s = inr (rss, s) /\ List.concat rss = [].
Proof.
  intros Hf. induction l as [|x l (rss & IH & Hc)].
  - exists []. split; reflexivity.
  - exists ([] :: rss). cbn [mapM]. unfold bind. rewrite Hf, IH.
    split; [reflexivity | exact Hc].
Qed.

(** With no participant or no day the record list is empty, the frame has
    no column, and the first clock column cannot be computed: the run
    raises, and writes no table. *)
Lemma empty_run_raises `{L : Lib} params (D P : nat) seed s0 t :
  normalize_params params = inr t ->
  P = 0%nat \/ D = 0%nat ->
  Advanced.generate_time_series_sleepdata params D P seed s0
  = inl (KeyError "Lights_Off")
  /\ Basic.generate_time_series_sleepdata params D P seed s0
     = inl (KeyError "Lights_Off").
Proof.
  intros Hn [-> | ->];
    unfold Advanced.generate_time_series_sleepdata,
      Basic.generate_time_series_sleepdata, bind, np_random_seed, lift;
    rewrite Hn.
  - split; reflexivity.
  - cbn [seq].
    destruct (mapM_all_nil (fun pid => mapM (Advanced.simulate_day t pid) [])
                (seq 1 P) (seed_state seed) (fun _ _ => eq_refl))
      as (rss & -> & ->).
    destruct (mapM_all_nil (fun pid => mapM (Basic.simulate_day t pid) [])
                (seq 1 P) (seed_state seed) (fun _ _ => eq_refl))
      as (rss' & -> & ->).
    split; reflexivity.
Qed.

(** * Runs that complete *)

Section Completion.
Context {L : Lib}.







End Completion.

(** * The statements on a concrete run *)

Lemma toy_advanced_run :
  Advanced.generate_time_series_sleepdata Toy.sample_params 3 2 42 0%nat
  = inr ((fst Toy.advanced_views, snd Toy.advanced_views), 102%nat).
Proof. vm_compute. reflexivity. Qed.

Lemma toy_basic_run :
  Basic.generate_time_series_sleepdata Toy.sample_params 3 2 42 0%nat
  = inr (Toy.basic_table, 72%nat).
Proof. vm_compute. reflexivity. Qed.


Lemma sleep_block_totals_witness :
  List.length (snd Toy.advanced_views) = List.length (fst Toy.advanced_views)
  /\ exists (lo se sol waso tib tst : Q) (sec : cell),
       field (hd [] (fst Toy.advanced_views)) "SOL" sol
       /\ field (hd [] (fst Toy.advanced_views)) "TIB" tib
       /\ get (hd [] (fst Toy.advanced_views)) "SE" = Some sec
       /\ get (hd [] (snd Toy.advanced_views)) "Sleep_JSON"
          = Some (CStr (json_dumps (block_of lo se sol waso tib tst sec))).
Proof.
  pose proof (sleep_block_totals_are_rounded_fields _ _ _ _ _ _ _ _
                toy_advanced_run) as [Hlen Hrows].
  split; [exact Hlen|].
  destruct (Hrows 0%nat (hd [] (fst Toy.advanced_views))
              (hd [] (snd Toy.advanced_views)) eq_refl eq_refl)
    as (lo & se & sol & waso & tib & tst & sec
        & _ & _ & Hsol & _ & Htib & _ & Hsec & _ & _ & _ & _ & Hjson).
  exists lo, se, sol, waso, tib, tst, sec.
  exact (conj Hsol (conj Htib (conj Hsec Hjson))).
Defined.

Lemma two_participants_three_days :
  List.length (fst Toy.advanced_views) = 6%nat
  /\ List.length (snd Toy.advanced_views) = 6%nat
  /\ map identity (fst Toy.advanced_views) = map identity_of (grid 3 2).
Proof.
  pose proof (views_have_PD_rows_in_loop_order _ _ _ _ _ _ _ _ toy_advanced_run)
    as (H1 & H2 & H3 & _).
  exact (conj H1 (conj H2 H3)).
Defined.

Lemma gamma_sampler_cases_witness :
  sample_gamma 30 0 0%nat = inl ZeroDivisionError
  /\ sample_gamma 0 10 0%nat = inl ZeroDivisionError
  /\ sample_gamma (-30 # 1) 10 0%nat = inl (ValueError "scale < 0")
  /\ sample_gamma 30 10 0%nat
     = inr (draw_gamma ((30 / 10) ^ 2) (10 ^ 2 / 30) 0%nat).
Proof.
  destruct (@gamma_sampler_parameter_cases Toy.ToyLib 30 0 0%nat) as (Z1 & _ & _).
  destruct (@gamma_sampler_parameter_cases Toy.ToyLib 0 10 0%nat) as (Z2 & _ & _).
  destruct (@gamma_sampler_parameter_cases Toy.ToyLib (-30 # 1) 10 0%nat) as (_ & N & _).
  destruct (@gamma_sampler_parameter_cases Toy.ToyLib 30 10 0%nat) as (_ & _ & D).
  split; [apply Z1; left; reflexivity|].
  split; [apply Z2; right; reflexivity|].
  split; [apply N; [discriminate | reflexivity]|].
  apply D; [discriminate | reflexivity].
Defined.

(** The loop alone does depend on the state it starts from: what makes two
    runs agree is the seeding statement in front of it. *)
Lemma unseeded_loop_depends_on_stream :
  forall t, normalize_params Toy.sample_params = inr t ->
  Basic.simulate_day t 1 1 0%nat <> Basic.simulate_day t 1 1 1%nat.
Proof.
  intros t H. vm_compute in H. injection H as <-. vm_compute. discriminate.
Qed.

(** C2, as stated, fails for a negative SD with a positive mean: the
    sampler raises nothing and draws. *)
Lemma negative_sd_is_not_rejected :
  -10 # 1 <= 0
  /\ sample_gamma 30 (-10 # 1) 0%nat = inr (15 # 1, 1%nat)
  /\ sample_gamma 30 (-10 # 1) 0%nat = sample_gamma 30 (10 # 1) 0%nat.
Proof. split; [discriminate|]. split; vm_compute; reflexivity. Qed.

(** * The loops as one pass over the stream *)

Section OnePass.
Context {L : Lib}.

Lemma mapM_app {A B} (f : A -> M B) (l1 l2 : list A) (s : rng) :
  mapM f (l1 ++ l2) s
  = match mapM f l1 s with
    | inl e => inl e
    | inr (ys1, s1) =>
        match mapM f l2 s1 with
        | inl e => inl e
        | inr (ys2, s2) => inr ((ys1 ++ ys2)%list, s2)
        end
    end.
Proof.
  revert s. induction l1 as [|x l1 IH]; intros s.
  - cbn. destruct (mapM f l2 s) as [e|[ys2 s2]]; reflexivity.
  - cbn [mapM app]. unfold bind, ret. destruct (f x s) as [e|[y s1]]; [reflexivity|].
    rewrite IH.
    destruct (mapM f l1 s1) as [e|[ys1 s2]]; [reflexivity|].
    destruct (mapM f l2 s2) as [e|[ys2 s3]]; reflexivity.
Qed.

Lemma mapM_on_value {A B C} (f : A -> M C) (g : A -> M B) (h : B -> C)
      (l : list A) (s : rng) :
  (forall x s0, f x s0 = on_value h (g x s0)) ->
  mapM f l s = on_value (map h) (mapM g l s).
Proof.
  intros Hf. revert s. induction l as [|x l IH]; intros s; [reflexivity|].
  cbn [mapM]. unfold bind. rewrite Hf.
  destruct (g x s) as [e|[y s1]]; [reflexivity|]. cbn [on_value].
  rewrite IH. destruct (mapM g l s1) as [e|[ys s2]]; reflexivity.
Qed.

Lemma mapM_map_arg {A A' B} (g : A' -> M B) (k : A -> A') (l : list A) (s : rng) :
  mapM (fun x => g (k x)) l s = mapM g (map k l) s.
Proof.
  revert s. induction l as [|x l IH]; intros s; [reflexivity|].
  cbn [mapM map]. unfold bind. destruct (g (k x) s) as [e|[y s1]]; [reflexivity|].
  rewrite IH. reflexivity.
Qed.

(** The nested loops draw what a single loop over the grid draws, in the
    same order, and stop with the same error. *)
Lemma nested_loops_flat {B} (g : nat * nat -> M B) (pids days : list nat) (s : rng) :
  on_value (@List.concat B)
           (mapM (fun pid => mapM (fun day => g (pid, day)) days) pids s)
  = mapM g (flat_map (fun pid => map (pair pid) days) pids) s.
Proof.
  revert s. induction pids as [|pid pids IH]; intros s; [reflexivity|].
  cbn [mapM flat_map]. rewrite mapM_app. unfold bind.
  rewrite (mapM_map_arg g (pair pid) days s).
  destruct (mapM g (map (pair pid) days) s) as [e|[ys1 s1]]; [reflexivity|].
  rewrite <- IH.
  destruct (mapM (fun pid0 => mapM (fun day => g (pid0, day)) days) pids s1)
    as [e|[rss s2]]; reflexivity.
Qed.

Lemma advanced_simulate_day_eq t pid day s :
  Advanced.simulate_day t pid day s = on_value dd_record (sample_day t (pid, day) s).
Proof.
  unfold Advanced.simulate_day, sample_day, bind, ret.
  destruct (sample_primitives t s) as [e|[p s1]]; [reflexivity|].
  destruct (Advanced.sample_habits s1) as [e|[h s2]]; reflexivity.
Qed.

Lemma basic_simulate_day_eq t pid day s :
  Basic.simulate_day t pid day s
  = on_value (fun x => Basic.make_record (fst (fst x)) (snd (fst x)) (snd x))
             (sample_basic_day t (pid, day) s).
Proof.
  unfold Basic.simulate_day, sample_basic_day, bind, ret.
  destruct (sample_primitives t s) as [e|[p s1]]; reflexivity.
Qed.

Lemma advanced_loops_eq t days n s :
  on_value (@List.concat row)
    (mapM (fun pid => mapM (Advanced.simulate_day t pid) (seq 1 days)) (seq 1 n) s)
  = on_value (map dd_record) (mapM (sample_day t) (grid days n) s).
Proof.
  rewrite <- (mapM_on_value (fun id => Advanced.simulate_day t (fst id) (snd id))
                (sample_day t) dd_record)
    by (intros [pid day] s0; apply advanced_simulate_day_eq).
  unfold grid. rewrite <- nested_loops_flat. reflexivity.
Qed.

Lemma basic_loops_eq t days n s :
  on_value (@List.concat row)
    (mapM (fun pid => mapM (Basic.simulate_day t pid) (seq 1 days)) (seq 1 n) s)
  = on_value (map (fun x => Basic.make_record (fst (fst x)) (snd (fst x)) (snd x)))
             (mapM (sample_basic_day t) (grid days n) s).
Proof.
  rewrite <- (mapM_on_value (fun id => Basic.simulate_day t (fst id) (snd id))
                (sample_basic_day t)
                (fun x => Basic.make_record (fst (fst x)) (snd (fst x)) (snd x)))
    by (intros [pid day] s0; apply basic_simulate_day_eq).
  unfold grid. rewrite <- nested_loops_flat. reflexivity.
Qed.

(** A run of the advanced script, in one equation. *)
Lemma advanced_run_eq params days n seed s0 :
  Advanced.generate_time_series_sleepdata params days n seed s0
  = match normalize_params params with
    | inl e => inl e
    | inr t =>
        match mapM (sample_day t) (grid days n) (seed_state seed) with
        | inl e => inl e
        | inr ([], _) => inl (KeyError "Lights_Off")
        | inr (recs, s1) => inr ((map full_row recs, map block_row recs), s1)
        end
    end.
Proof.
  unfold Advanced.generate_time_series_sleepdata, bind, np_random_seed, lift, ret.
  destruct (normalize_params params) as [e|t]; [reflexivity|].
  pose proof (advanced_loops_eq t days n (seed_state seed)) as H.
  destruct (mapM (fun pid => mapM (Advanced.simulate_day t pid) (seq 1 days))
              (seq 1 n) (seed_state seed)) as [e|[rss s1]];
    destruct (mapM (sample_day t) (grid days n) (seed_state seed)) as [e'|[recs s1']];
    cbn [on_value] in H; try discriminate H.
  - injection H as ->. reflexivity.
  - injection H as -> ->. destruct recs as [|x recs]; [reflexivity|].
    rewrite add_clock_columns_advanced by discriminate.
    rewrite with_json_rows, json_only_rows by discriminate. reflexivity.
Qed.

(** A run of the basic script, in one equation. *)
Lemma basic_run_eq params days n seed s0 :
  Basic.generate_time_series_sleepdata params days n seed s0
  = match normalize_params params with
    | inl e => inl e
    | inr t =>
        match mapM (sample_basic_day t) (grid days n) (seed_state seed) with
        | inl e => inl e
        | inr ([], _) => inl (KeyError "Lights_Off")
        | inr (recs, s1) => inr (map basic_row recs, s1)
        end
    end.
Proof.
  unfold Basic.generate_time_series_sleepdata, bind, np_random_seed, lift, ret.
  destruct (normalize_params params) as [e|t]; [reflexivity|].
  pose proof (basic_loops_eq t days n (seed_state seed)) as H.
  destruct (mapM (fun pid => mapM (Basic.simulate_day t pid) (seq 1 days))
              (seq 1 n) (seed_state seed)) as [e|[rss s1]];
    destruct (mapM (sample_basic_day t) (grid days n) (seed_state seed))
      as [e'|[recs s1']];
    cbn [on_value] in H; try discriminate H.
  - injection H as ->. reflexivity.
  - injection H as -> ->. destruct recs as [|x recs]; [reflexivity|].
    rewrite add_clock_columns_basic by discriminate. reflexivity.
Qed.

End OnePass.

(** * What a completed run was sampled from *)

Section Sampled.
Context {L : Lib}.

Lemma advanced_run_inv params days n seed s0 df blk s1 :
  Advanced.generate_time_series_sleepdata params days n seed s0
  = inr ((df, blk), s1) ->
  exists t recs,
    normalize_params params = inr t
    /\ mapM (sample_day t) (grid days n) (seed_state seed) = inr (recs, s1)
    /\ recs <> []
    /\ df = map full_row recs /\ blk = map block_row recs.
Proof.
  rewrite advanced_run_eq. intros H.
  destruct (normalize_params params) as [e|t]; [discriminate|].
  destruct (mapM _ _ _) as [e|[[|x recs] s2]] eqn:E; try discriminate.
  injection H as Hdf Hblk Hs. subst df blk s1. exists t, (x :: recs).
  repeat split; try reflexivity; [exact E | discriminate].
Qed.

Lemma basic_run_inv params days n seed s0 df s1 :
  Basic.generate_time_series_sleepdata params days n seed s0 = inr (df, s1) ->
  exists t recs,
    normalize_params params = inr t
    /\ mapM (sample_basic_day t) (grid days n) (seed_state seed) = inr (recs, s1)
    /\ recs <> []
    /\ df = map basic_row recs.
Proof.
  rewrite basic_run_eq. intros H.
  destruct (normalize_params params) as [e|t]; [discriminate|].
  destruct (mapM _ _ _) as [e|[[|x recs] s2]] eqn:E; try discriminate.
  injection H as Hdf Hs. subst df s1. exists t, (x :: recs).
  repeat split; try reflexivity; [exact E | discriminate].
Qed.

Lemma mapM_Forall {A B} (f : A -> M B) (P : B -> Prop) (l : list A) s ys s' :
  (forall x s0 y s1, f x s0 = inr (y, s1) -> P y) ->
  mapM f l s = inr (ys, s') -> Forall P ys.
Proof.
  intros HP H. apply mapM_inv in H.
  induction H as [|x y l ys (s0 & s1 & Hf) _ IH]; constructor; eauto.
Qed.

Lemma mapM_keys {A B} (f : A -> M B) (k : B -> A) (l : list A) s ys s' :
  (forall x s0 y s1, f x s0 = inr (y, s1) -> k y = x) ->
  mapM f l s = inr (ys, s') -> map k ys = l.
Proof.
  intros Hk H. apply mapM_inv in H.
  induction H as [|x y l ys (s0 & s1 & Hf) _ IH]; cbn; [reflexivity|].
  rewrite IH, (Hk _ _ _ _ Hf). reflexivity.
Qed.

(** ** Ranges of the sampled values *)

Lemma np_clip_int_bounds (x lo hi : Z) :
  (lo <= hi)%Z -> (lo <= np_clip_int x lo hi <= hi)%Z.
Proof. unfold np_clip_int. lia. Qed.

Lemma py_int_clip_bounds (x : Q) (hi : Z) :
  (0 <= hi)%Z -> (0 <= py_int (np_clip x 0 (inject_Z hi)) <= hi)%Z.
Proof.
  intros Hhi.
  assert (H0 : 0 <= inject_Z hi)
    by (change (inject_Z 0 <= inject_Z hi); rewrite <- Zle_Qle; exact Hhi).
  destruct (np_clip_bounds x 0 (inject_Z hi) H0) as [Hlo Hup].
  unfold py_int. rewrite (proj2 (Qltb_ge _ _) Hlo).
  pose proof (Qfloor_resp_le _ _ Hlo) as F1. pose proof (Qfloor_resp_le _ _ Hup) as F2.
  change (Qfloor 0) with 0%Z in F1. rewrite Qfloor_Z in F2. lia.
Qed.

Lemma sample_habits_range s h s' :
  Advanced.sample_habits s = inr (h, s') -> habits_in_range h.
Proof.
  unfold Advanced.sample_habits, bind, ret. intros H.
  destruct (np_random_normal 7 (3 # 2) s) as [e|[x1 s1]]; [discriminate|].
  destruct (np_random_normal (13 # 2) (9 # 5) s1) as [e|[x2 s2]]; [discriminate|].
  destruct (np_random_normal 50 20 s2) as [e|[x3 s3]]; [discriminate|].
  destruct (np_random_poisson (6 # 5) s3) as [e|[k s4]]; [discriminate|].
  destruct (np_random_normal 45 15 s4) as [e|[x5 s5]]; [discriminate|].
  injection H as <- _. unfold habits_in_range. cbn [Advanced.sq Advanced.rested
    Advanced.physical_activity_minutes Advanced.caffeine Advanced.calm_down_minutes].
  split; [apply np_clip_int_bounds; lia|].
  split; [apply np_clip_int_bounds; lia|].
  split; [apply (py_int_clip_bounds x3 180); lia|].
  split; [apply np_clip_int_bounds; lia|].
  apply (py_int_clip_bounds x5 120); lia.
Qed.

Lemma sample_day_range t id s x s' :
  sample_day t id s = inr (x, s') ->
  dd_id x = id /\ wait_in_range (dd_prims x) /\ habits_in_range (dd_habits x).
Proof.
  unfold sample_day, bind, ret. intros H.
  destruct (sample_primitives t s) as [e|[p s1]] eqn:Ep; [discriminate|].
  destruct (Advanced.sample_habits s1) as [e|[h s2]] eqn:Eh; [discriminate|].
  injection H as <- _. destruct id as [pid day].
  split; [reflexivity|]. split.
  - eapply sample_primitives_wait, Ep.
  - eapply sample_habits_range, Eh.
Qed.

Lemma sample_basic_day_range t id s x s' :
  sample_basic_day t id s = inr (x, s') ->
  fst x = id /\ wait_in_range (snd x).
Proof.
  unfold sample_basic_day, bind, ret. intros H.
  destruct (sample_primitives t s) as [e|[p s1]] eqn:Ep; [discriminate|].
  injection H as <- _. destruct id as [pid day].
  split; [reflexivity|]. eapply sample_primitives_wait, Ep.
Qed.

(** X8.  In every row of both views of a completed run of the advanced script,
    SQ and Rested are integers in [1, 10], Physical_Activity_Minutes is in
    [0, 180], Caffeine in [0, 6], the minutes to calm down in [0, 120], and
    Medication holds no value. *)
Theorem habit_cells_in_range params days n seed s0 df blk s1 :
  Advanced.generate_time_series_sleepdata params days n seed s0
  = inr ((df, blk), s1) ->
  Forall (fun r =>
            exists q_sq q_rested q_pa q_caf q_calm : Z,
              get r "SQ" = Some (CInt q_sq) /\ (1 <= q_sq <= 10)%Z
              /\ get r "Rested" = Some (CInt q_rested) /\ (1 <= q_rested <= 10)%Z
              /\ get r "Physical_Activity_Minutes" = Some (CInt q_pa)
              /\ (0 <= q_pa <= 180)%Z
              /\ get r "Caffeine" = Some (CInt q_caf) /\ (0 <= q_caf <= 6)%Z
              /\ get r "time to calm down and relax" = Some (CInt q_calm)
              /\ (0 <= q_calm <= 120)%Z
              /\ get r "Medication" = Some CNone)
         (df ++ blk).
Proof.
  intros H. apply advanced_run_inv in H.
  destruct H as (t & recs & _ & Hs & _ & -> & ->).
  pose proof (mapM_Forall _ (fun x => habits_in_range (dd_habits x)) _ _ _ _
                (fun id s0' x s1' Hx => proj2 (proj2 (sample_day_range _ _ _ _ _ Hx)))
                Hs) as Hall.
  rewrite Forall_forall in Hall.
  apply Forall_app. split; apply Forall_forall; intros r Hin;
    apply in_map_iff in Hin; destruct Hin as (x & <- & Hx);
    destruct (Hall x Hx) as (H1 & H2 & H3 & H4 & H5);
    exists (Advanced.sq (dd_habits x)), (Advanced.rested (dd_habits x)),
           (Advanced.physical_activity_minutes (dd_habits x)),
           (Advanced.caffeine (dd_habits x)),
           (Advanced.calm_down_minutes (dd_habits x));
    repeat (split; [first [reflexivity | assumption]|]); reflexivity.
Qed.


End Sampled.

(** * When a run completes, and how runs relate *)

Section Completion2.
Context {L : Lib}.





Lemma mapM_length {A B} (f : A -> M B) (l : list A) s ys s' :
  mapM f l s = inr (ys, s') -> List.length ys = List.length l.
Proof.
  intros H. apply mapM_inv in H. symmetry. eapply Forall2_length, H.
Qed.


(** ** One more participant *)

Lemma grid_succ (days n : nat) :
  grid days (S n) = (grid days n ++ map (pair (S n)) (seq 1 days))%list.
Proof.
  unfold grid. rewrite seq_S, flat_map_app. cbn [flat_map].
  rewrite app_nil_r. reflexivity.
Qed.

(** X14.  Adding a participant leaves the rows of the participants before it as
    they were: the tables of a run with P + 1 participants begin with the
    tables of the run with P participants (same seed, table and day count),
    followed by the D rows of the new participant. *)
Theorem one_more_participant_appends params (D P : nat) seed s0 :
  (0 < P)%nat ->
  (forall df' blk' s1',
     Advanced.generate_time_series_sleepdata params D (S P) seed s0
     = inr ((df', blk'), s1') ->
     exists df blk s1 new_full new_block,
       Advanced.generate_time_series_sleepdata params D P seed s0
       = inr ((df, blk), s1)
       /\ df' = (df ++ new_full)%list /\ blk' = (blk ++ new_block)%list
       /\ List.length new_full = D /\ List.length new_block = D)
  /\ (forall df' s1',
        Basic.generate_time_series_sleepdata params D (S P) seed s0
        = inr (df', s1') ->
        exists df s1 new_rows,
          Basic.generate_time_series_sleepdata params D P seed s0 = inr (df, s1)
          /\ df' = (df ++ new_rows)%list /\ List.length new_rows = D).
Proof.
  intros HP. split.
  - intros df' blk' s1' H. apply advanced_run_inv in H.
    destruct H as (t & recs' & Hn & Hs & Hne & -> & ->).
    rewrite grid_succ, mapM_app in Hs.
    destruct (mapM (sample_day t) (grid D P) (seed_state seed))
      as [e|[recs s1]] eqn:E1; [discriminate|].
    destruct (mapM (sample_day t) (map (pair (S P)) (seq 1 D)) s1)
      as [e|[ext s2]] eqn:E2; [discriminate|].
    injection Hs as <- <-.
    pose proof (mapM_length _ _ _ _ _ E1) as L1. rewrite grid_length in L1.
    pose proof (mapM_length _ _ _ _ _ E2) as L2.
    rewrite length_map, length_seq in L2.
    assert (HD : (0 < D)%nat).
    { destruct D; [| lia]. destruct recs; [| cbn in L1; lia].
      destruct ext; [| cbn in L2; lia]. cbn in Hne. congruence. }
    exists (map full_row recs), (map block_row recs), s1,
           (map full_row ext), (map block_row ext).
    rewrite advanced_run_eq, Hn, E1.
    destruct recs as [|x recs]; [cbn in L1; nia|].
    rewrite !map_app, !length_map. repeat split; assumption.
  - intros df' s1' H. apply basic_run_inv in H.
    destruct H as (t & recs' & Hn & Hs & Hne & ->).
    rewrite grid_succ, mapM_app in Hs.
    destruct (mapM (sample_basic_day t) (grid D P) (seed_state seed))
      as [e|[recs s1]] eqn:E1; [discriminate|].
    destruct (mapM (sample_basic_day t) (map (pair (S P)) (seq 1 D)) s1)
      as [e|[ext s2]] eqn:E2; [discriminate|].
    injection Hs as <- <-.
    pose proof (mapM_length _ _ _ _ _ E1) as L1. rewrite grid_length in L1.
    pose proof (mapM_length _ _ _ _ _ E2) as L2.
    rewrite length_map, length_seq in L2.
    assert (HD : (0 < D)%nat).
    { destruct D; [| lia]. destruct recs; [| cbn in L1; lia].
      destruct ext; [| cbn in L2; lia]. cbn in Hne. congruence. }
    exists (map basic_row recs), s1, (map basic_row ext).
    rewrite basic_run_eq, Hn, E1.
    destruct recs as [|x recs]; [cbn in L1; nia|].
    rewrite !map_app, !length_map. repeat split; assumption.
Qed.

End Completion2.

Section Relations.
Context {L : Lib}.

(** ** The two scripts on the same seed *)

(** X16.  Run on the same seed and table, the two scripts agree on their first
    record: the first five draws are the same, so the sampled and derived
    sleep cells other than Midpoint coincide.  (The advanced script then
    draws the habit variables, which shifts the stream for every later
    record.) *)
Theorem first_record_agrees params (D P : nat) seed s0 s0' dfb sb df blk sa :
  Basic.generate_time_series_sleepdata params D P seed s0 = inr (dfb, sb) ->
  Advanced.generate_time_series_sleepdata params D P seed s0'
  = inr ((df, blk), sa) ->
  exists rb ra,
    hd_error dfb = Some rb /\ hd_error df = Some ra
    /\ Forall (fun c => get rb c = get ra c /\ get ra c <> None)
         [ "Lights_Off"; "Sleep_End"; "SOL"; "WASO"; "Out_of_Bed"; "TIB";
           "TST"; "SE"; "Lights_Off_Clock"; "Sleep_End_Clock" ]%string.
Proof.
  intros Hb Ha. apply basic_run_inv in Hb. apply advanced_run_inv in Ha.
  destruct Hb as (t & recsb & Hn & Hsb & Hneb & ->).
  destruct Ha as (t' & recsa & Hn' & Hsa & _ & -> & _).
  rewrite Hn in Hn'. injection Hn' as <-.
  destruct (grid D P) as [|id ids].
  { cbn in Hsb. injection Hsb as <- _. congruence. }
  cbn [mapM] in Hsb, Hsa. unfold bind in Hsb, Hsa.
  destruct (sample_basic_day t id (seed_state seed)) as [e|[xb s1]] eqn:Eb;
    [discriminate|].
  destruct (sample_day t id (seed_state seed)) as [e|[xa s2]] eqn:Ea;
    [discriminate|].
  destruct (mapM (sample_basic_day t) ids s1) as [e|[rb' s3]]; [discriminate|].
  destruct (mapM (sample_day t) ids s2) as [e|[ra' s4]]; [discriminate|].
  cbn in Hsb, Hsa. injection Hsb as <- _. injection Hsa as <- _.
  unfold sample_basic_day, sample_day, bind, ret in Eb, Ea.
  destruct (sample_primitives t (seed_state seed)) as [e|[p s5]]; [discriminate|].
  destruct (Advanced.sample_habits s5) as [e|[h s6]]; [discriminate|].
  injection Eb as <- _. injection Ea as <- _.
  do 2 eexists. split; [reflexivity|]. split; [reflexivity|].
  repeat (constructor; [split; [reflexivity | discriminate]|]).
  constructor.
Qed.

(** ** Reshaping participants and days *)

Lemma sample_day_ids t id1 id2 s :
  on_value (fun x => (dd_prims x, dd_habits x)) (sample_day t id1 s)
  = on_value (fun x => (dd_prims x, dd_habits x)) (sample_day t id2 s).
Proof.
  unfold sample_day, bind, ret.
  destruct (sample_primitives t s) as [e|[p s1]]; [reflexivity|].
  destruct (Advanced.sample_habits s1) as [e|[h s2]]; reflexivity.
Qed.

Lemma sample_days_ids t ids1 ids2 s :
  List.length ids1 = List.length ids2 ->
  on_value (map (fun x => (dd_prims x, dd_habits x))) (mapM (sample_day t) ids1 s)
  = on_value (map (fun x => (dd_prims x, dd_habits x))) (mapM (sample_day t) ids2 s).
Proof.
  revert ids2 s. induction ids1 as [|id1 ids1 IH]; intros [|id2 ids2] s Hlen;
    try discriminate; [reflexivity|].
  cbn [mapM]. unfold bind, ret.
  pose proof (sample_day_ids t id1 id2 s) as H1.
  destruct (sample_day t id1 s) as [e|[x1 s1]];
    destruct (sample_day t id2 s) as [e'|[x2 s2]]; cbn [on_value] in H1;
    try discriminate H1.
  - injection H1 as ->. reflexivity.
  - injection H1 as Hp Hh ->.
    pose proof (IH ids2 s2 (eq_add_S _ _ Hlen)) as H2.
    destruct (mapM (sample_day t) ids1 s2) as [e|[xs1 s3]];
      destruct (mapM (sample_day t) ids2 s2) as [e'|[xs2 s4]]; cbn [on_value] in H2;
      try discriminate H2.
    + injection H2 as ->. reflexivity.
    + injection H2 as Hm ->. cbn [on_value map]. rewrite Hp, Hh, Hm. reflexivity.
Qed.

Lemma full_row_cell_of_sample (x1 x2 : day_data) (c : string) :
  dd_prims x1 = dd_prims x2 -> dd_habits x1 = dd_habits x2 ->
  c <> "Participant"%string -> c <> "Email"%string -> c <> "Day"%string ->
  get (full_row x1) c = get (full_row x2) c
  /\ get (block_row x1) c = get (block_row x2) c.
Proof.
  destruct x1 as [pid1 day1 p1 h1], x2 as [pid2 day2 p2 h2].
  cbn [dd_prims dd_habits]. intros -> -> H1 H2 H3.
  apply not_eq_sym, String.eqb_neq in H1, H2, H3.
  unfold full_row, block_row, dd_record, dd_block, Advanced.make_record.
  cbn [dd_prims dd_habits dd_pid dd_day app get].
  rewrite H1, H2, H3. split; reflexivity.
Qed.

(** X15.  The sleep and habit values of a run depend on the participant and day
    counts only through their product: two completed runs with the same
    seed and table and P1*D1 = P2*D2 leave the stream in the same state and
    agree, row by row, on every cell except the identity cells
    (Participant, Email, Day). *)
Theorem same_product_same_values params seed (D1 P1 D2 P2 : nat)
    s0 s0' df1 blk1 s1 df2 blk2 s2 :
  (P1 * D1 = P2 * D2)%nat ->
  Advanced.generate_time_series_sleepdata params D1 P1 seed s0
  = inr ((df1, blk1), s1) ->
  Advanced.generate_time_series_sleepdata params D2 P2 seed s0'
  = inr ((df2, blk2), s2) ->
  s1 = s2
  /\ List.length df1 = List.length df2
  /\ forall (i : nat) (c : string),
       c <> "Participant"%string -> c <> "Email"%string -> c <> "Day"%string ->
       (forall r1 r2, nth_error df1 i = Some r1 -> nth_error df2 i = Some r2 ->
                      get r1 c = get r2 c)
       /\ (forall b1 b2, nth_error blk1 i = Some b1 -> nth_error blk2 i = Some b2 ->
                         get b1 c = get b2 c).
Proof.
  intros Hprod H1 H2. apply advanced_run_inv in H1, H2.
  destruct H1 as (t & recs1 & Hn & Hs1 & _ & -> & ->).
  destruct H2 as (t' & recs2 & Hn' & Hs2 & _ & -> & ->).
  rewrite Hn in Hn'. injection Hn' as <-.
  pose proof (sample_days_ids t (grid D1 P1) (grid D2 P2) (seed_state seed)) as E.
  rewrite !grid_length, Hs1, Hs2 in E. specialize (E Hprod).
  cbn [on_value] in E. injection E as Em Es.
  split; [exact Es|].
  split; [rewrite !length_map; rewrite <- (length_map (fun x => (dd_prims x, dd_habits x)) recs1),
            Em, length_map; reflexivity|].
  intros i c Hc1 Hc2 Hc3.
  assert (Hi : forall x1 x2, nth_error recs1 i = Some x1 -> nth_error recs2 i = Some x2 ->
                             dd_prims x1 = dd_prims x2 /\ dd_habits x1 = dd_habits x2).
  { intros x1 x2 E1 E2.
    apply (f_equal (fun l => nth_error l i)) in Em.
    rewrite !nth_error_map, E1, E2 in Em. cbn in Em. injection Em as -> ->.
    split; reflexivity. }
  split.
  - intros r1 r2. rewrite !nth_error_map.
    destruct (nth_error recs1 i) as [x1|]; [| discriminate].
    destruct (nth_error recs2 i) as [x2|]; [| discriminate].
    cbn. intros [= <-] [= <-]. destruct (Hi x1 x2 eq_refl eq_refl) as [Hp Hh].
    apply (full_row_cell_of_sample x1 x2 c Hp Hh Hc1 Hc2 Hc3).
  - intros b1 b2. rewrite !nth_error_map.
    destruct (nth_error recs1 i) as [x1|]; [| discriminate].
    destruct (nth_error recs2 i) as [x2|]; [| discriminate].
    cbn. intros [= <-] [= <-]. destruct (Hi x1 x2 eq_refl eq_refl) as [Hp Hh].
    apply (full_row_cell_of_sample x1 x2 c Hp Hh Hc1 Hc2 Hc3).
Qed.

End Relations.

(** * Identity cells *)

Lemma string_length_append (s t : string) :
  String.length (s ++ t) = (String.length s + String.length t)%nat.
Proof. induction s as [|c s IH]; cbn; [reflexivity | rewrite IH; reflexivity]. Qed.

Lemma string_append_inj_l (s t1 t2 : string) :
  (s ++ t1 = s ++ t2)%string -> t1 = t2.
Proof.
  induction s as [|c s IH]; cbn; intros H; [exact H|].
  injection H as H. apply IH, H.
Qed.

Lemma string_append_inj_r (s1 s2 t : string) :
  (s1 ++ t = s2 ++ t)%string -> s1 = s2.
Proof.
  revert s2. induction s1 as [|c s1 IH]; intros [|c2 s2] H.
  - reflexivity.
  - apply (f_equal String.length) in H. cbn in H.
    rewrite string_length_append in H. lia.
  - apply (f_equal String.length) in H. cbn in H.
    rewrite string_length_append in H. lia.
  - cbn in H. injection H as -> H. f_equal. apply IH, H.
Qed.

Lemma to_uint_not_nil (n : nat) : Nat.to_uint n <> Decimal.Nil.
Proof.
  rewrite <- (DecimalNat.Unsigned.of_to n) at 1.
  rewrite DecimalNat.Unsigned.to_of. apply DecimalFacts.unorm_nonnil.
Qed.

Lemma str_of_nat_digits (n : nat) :
  str_of_nat n = NilEmpty.string_of_uint (Nat.to_uint n).
Proof.
  unfold str_of_nat, NilZero.string_of_uint.
  destruct (Nat.to_uint n) eqn:E; try reflexivity.
  exfalso. exact (to_uint_not_nil n E).
Qed.

Lemma zeros_digits (k : nat) (d : Decimal.uint) :
  (zeros k ++ NilEmpty.string_of_uint d)%string
  = NilEmpty.string_of_uint (Nat.iter k Decimal.D0 d).
Proof. induction k as [|k IH]; cbn; [reflexivity | rewrite IH; reflexivity]. Qed.

(** Reading the digits of a zero-padded number gives the number back. *)
Lemma decimal_value_zfill (w n : nat) : decimal_value (zfill w n) = Some n.
Proof.
  unfold decimal_value, zfill. rewrite str_of_nat_digits, zeros_digits, NilEmpty.usu.
  cbn [option_map]. f_equal.
  rewrite <- DecimalNat.Unsigned.of_uint_norm, DecimalFacts.unorm_iter_D0,
    DecimalNat.Unsigned.of_uint_norm.
  apply DecimalNat.Unsigned.of_to.
Qed.

Lemma zfill_inj (w n1 n2 : nat) : zfill w n1 = zfill w n2 -> n1 = n2.
Proof.
  intros H. apply (f_equal decimal_value) in H.
  rewrite !decimal_value_zfill in H. injection H as H. exact H.
Qed.



Lemma grid_nth_div (days n i : nat) :
  (i < n * days)%nat ->
  nth_error (grid days n) i = Some (S (i / days), S (i mod days)).
Proof.
  intros Hi.
  assert (Hd : days <> 0%nat) by (intros ->; lia).
  rewrite (Nat.div_mod_eq i days) at 1.
  replace (days * (i / days) + i mod days)%nat
    with (i / days * days + i mod days)%nat by lia.
  apply grid_nth.
  - apply Nat.Div0.div_lt_upper_bound. lia.
  - apply Nat.mod_upper_bound, Hd.
Qed.

Section Identity.
Context {L : Lib}.

Lemma advanced_recs_ids t days n s recs s1 :
  mapM (sample_day t) (grid days n) s = inr (recs, s1) ->
  map dd_id recs = grid days n.
Proof.
  apply mapM_keys. intros id s0 x s2 H.
  apply (sample_day_range _ _ _ _ _ H).
Qed.

Lemma basic_recs_ids t days n s recs s1 :
  mapM (sample_basic_day t) (grid days n) s = inr (recs, s1) ->
  map fst recs = grid days n.
Proof.
  apply mapM_keys. intros id s0 x s2 H.
  apply (sample_basic_day_range _ _ _ _ _ H).
Qed.

Lemma nth_id {A} (k : A -> nat * nat) (recs : list A) (days n i : nat) (x : A) :
  map k recs = grid days n -> nth_error recs i = Some x ->
  k x = (S (i / days), S (i mod days)).
Proof.
  intros Hk Hx.
  assert (Hi : (i < n * days)%nat).
  { rewrite <- grid_length, <- Hk, length_map. apply nth_error_Some. congruence. }
  pose proof (grid_nth_div days n i Hi) as Hg.
  rewrite <- Hk, nth_error_map, Hx in Hg. cbn in Hg. injection Hg as Hg. exact Hg.
Qed.

(** X11.  In the full view, two rows carry the same participant code exactly
    when they belong to the same participant (the same block of D
    consecutive rows), and likewise for the e-mail address: no two
    participants share a code or an address.  Row i belongs to participant
    i / D + 1, the digits of whose number the code ends with. *)
Theorem participant_codes_are_unique params (D P : nat) seed s0 df blk s1 :
  Advanced.generate_time_series_sleepdata params D P seed s0
  = inr ((df, blk), s1) ->
  forall (i j : nat) (ri rj : row),
    nth_error df i = Some ri -> nth_error df j = Some rj ->
    get ri "Participant" = Some (CStr ("Mock_" ++ zfill 3 (S (i / D))))
    /\ decimal_value (zfill 3 (S (i / D))) = Some (S (i / D))
    /\ (get ri "Participant" = get rj "Participant" <-> (i / D = j / D)%nat)
    /\ (get ri "Email" = get rj "Email" <-> (i / D = j / D)%nat).
Proof.
  intros H i j ri rj. apply advanced_run_inv in H.
  destruct H as (t & recs & _ & Hs & _ & -> & _).
  apply advanced_recs_ids in Hs.
  rewrite !nth_error_map.
  destruct (nth_error recs i) as [xi|] eqn:Ei; [| discriminate].
  destruct (nth_error recs j) as [xj|] eqn:Ej; [| discriminate].
  cbn [option_map]. intros [= <-] [= <-].
  pose proof (nth_id dd_id recs D P i xi Hs Ei) as Hi.
  pose proof (nth_id dd_id recs D P j xj Hs Ej) as Hj.
  unfold dd_id in Hi, Hj. injection Hi as Hi _. injection Hj as Hj _.
  change (get (full_row xi) "Participant")
    with (Some (CStr ("Mock_" ++ zfill 3 (dd_pid xi)))).
  change (get (full_row xj) "Participant")
    with (Some (CStr ("Mock_" ++ zfill 3 (dd_pid xj)))).
  change (get (full_row xi) "Email")
    with (Some (CStr ("mock_" ++ zfill 3 (dd_pid xi) ++ "@example.test"))).
  change (get (full_row xj) "Email")
    with (Some (CStr ("mock_" ++ zfill 3 (dd_pid xj) ++ "@example.test"))).
  rewrite Hi, Hj.
  split; [reflexivity|]. split; [apply decimal_value_zfill|]. split.
  - split.
    + intros [= E]. apply zfill_inj in E. lia.
    + intros ->. reflexivity.
  - split.
    + intros [= E]. apply string_append_inj_r, zfill_inj in E. lia.
    + intros ->. reflexivity.
Qed.

(** X10.  The table of the basic script: P*D rows in the order of the loops (row
    i is day i mod D + 1 of participant i / D + 1), each with the same
    fourteen columns, the three clock columns holding the clock strings of
    Lights_Off, Sleep_End and Midpoint. *)
Theorem basic_table_shape params (D P : nat) seed s0 df s1 :
  Basic.generate_time_series_sleepdata params D P seed s0 = inr (df, s1) ->
  List.length df = (P * D)%nat
  /\ forall (i : nat) (r : row),
       nth_error df i = Some r ->
       map fst r = basic_columns
       /\ get r "Code" = Some (CStr ("Mock_" ++ zfill 3 (S (i / D))))
       /\ get r "Day" = Some (CInt (Z.of_nat (S (i mod D))))
       /\ exists lo se mid,
            field r "Lights_Off" lo /\ field r "Sleep_End" se
            /\ field r "Midpoint" mid
            /\ get r "Lights_Off_Clock" = Some (CStr (minutes_to_clock lo))
            /\ get r "Sleep_End_Clock" = Some (CStr (minutes_to_clock se))
            /\ get r "Midpoint_Clock" = Some (CStr (minutes_to_clock mid)).
Proof.
  intros H. apply basic_run_inv in H.
  destruct H as (t & recs & _ & Hs & _ & ->).
  pose proof (mapM_length _ _ _ _ _ Hs) as Hlen. rewrite grid_length in Hlen.
  apply basic_recs_ids in Hs.
  split; [rewrite length_map; exact Hlen|].
  intros i r. rewrite nth_error_map.
  destruct (nth_error recs i) as [x|] eqn:Ei; [| discriminate].
  cbn [option_map]. intros [= <-].
  pose proof (nth_id fst recs D P i x Hs Ei) as Hi.
  destruct x as [[pid day] p]. cbn [fst] in Hi. injection Hi as -> ->.
  split; [reflexivity|]. split; [reflexivity|]. split; [reflexivity|].
  exists (lights_off_min p), (sleep_end_min p),
         ((lights_off_min p + sleep_end_min p) / 2).
  repeat split; reflexivity.
Qed.

End Identity.

(** * Clock strings *)





Lemma strftime_HM_of_minutes (t : Z) (y : Q) :
  Qfloor y = t -> (0 <= t < 1440)%Z ->
  strftime_HM y = clock_string (Z.to_nat (t / 60)) (Z.to_nat (t mod 60))
  /\ (Z.to_nat (t / 60) < 24)%nat /\ (Z.to_nat (t mod 60) < 60)%nat
  /\ Z.of_nat (Z.to_nat (t / 60) * 60 + Z.to_nat (t mod 60)) = t.
Proof.
  intros Hy Ht. unfold strftime_HM, clock_string. rewrite Hy.
  assert (H60 : (0 <= t / 60 < 24)%Z).
  { split; [apply Z.div_pos; lia | apply Z.div_lt_upper_bound; lia]. }
  assert (Hm : (0 <= t mod 60 < 60)%Z) by (apply Z.mod_pos_bound; lia).
  rewrite (Z.mod_small (t / 60) 24) by exact H60.
  split; [reflexivity|]. split; [lia|]. split; [lia|].
  pose proof (Z.div_mod t 60). lia.
Qed.


Lemma py_mod_inject_Z (z : Z) :
  Qfloor (py_mod (inject_Z z) (24 * 60)) = (z mod 1440)%Z.
Proof.
  unfold py_mod.
  assert (F : Qfloor (inject_Z z / (24 * 60)) = (z / 1440)%Z).
  { rewrite (Zdiv_Qdiv z 1440). apply Qfloor_comp. reflexivity. }
  rewrite F.
  assert (E : inject_Z z - 24 * 60 * inject_Z (z / 1440) == inject_Z (z mod 1440)).
  { rewrite Z.mod_eq by lia. unfold Z.sub.
    rewrite inject_Z_plus, inject_Z_opp, inject_Z_mult. reflexivity. }
  rewrite (Qfloor_comp _ _ E). apply Qfloor_Z.
Qed.

Section RoundTrip.
Context {L : Lib}.

(** X4.  Normalising a clock value and formatting the result gives the clock
    value back, with or without the evening flag: the flag moves an evening
    time to [-360, 0), the formatting folds it back.  Without the flag the
    result is in [0, 1440); with it, in [-360, 1080). *)
Theorem normalise_then_format (val : pyval) (t : pytime) (b : bool) :
  clock_reading val = Some t -> valid_clock t ->
  exists q : Q,
    convert_time_to_minutes val b = inr q
    /\ minutes_to_clock q
       = clock_string (Z.to_nat (t_hour t)) (Z.to_nat (t_minute t))
    /\ (if b then -360 # 1 <= q /\ q < 1080 # 1 else 0 <= q /\ q < 1440 # 1).
Proof.
  intros Hr [Hh Hm]. rewrite (convert_clock_reading _ _ b Hr).
  set (mins := (t_hour t * 60 + t_minute t)%Z).
  assert (Hmins : (0 <= mins < 1440)%Z) by (unfold mins; lia).
  eexists. split; [reflexivity|].
  assert (Hfloor : Qfloor (py_mod (wrap_evening b mins) (24 * 60)) = mins).
  { unfold wrap_evening. destruct (b && (1080 <=? mins)%Z).
    - rewrite py_mod_inject_Z.
      replace (mins - 1440)%Z with (mins + (-1) * 1440)%Z by lia.
      rewrite Z.mod_add by lia. apply Z.mod_small, Hmins.
    - rewrite py_mod_inject_Z. apply Z.mod_small, Hmins. }
  split.
  - unfold minutes_to_clock.
    destruct (strftime_HM_of_minutes mins _ Hfloor Hmins) as (Hs & _).
    rewrite Hs. f_equal; f_equal.
    + unfold mins. rewrite Z.div_add_l, (Z.div_small (t_minute t) 60) by lia. lia.
    + unfold mins. rewrite Z.add_comm, Z.mod_add by lia. apply Z.mod_small, Hm.
  - unfold wrap_evening. destruct b; cbn [andb].
    + destruct (1080 <=? mins)%Z eqn:E.
      * apply Z.leb_le in E. split.
        -- change (-360 # 1) with (inject_Z (-360)). rewrite <- Zle_Qle. lia.
        -- change (1080 # 1) with (inject_Z 1080). rewrite <- Zlt_Qlt. lia.
      * apply Z.leb_gt in E. split.
        -- change (-360 # 1) with (inject_Z (-360)). rewrite <- Zle_Qle. lia.
        -- change (1080 # 1) with (inject_Z 1080). rewrite <- Zlt_Qlt. lia.
    + split.
      * change 0 with (inject_Z 0). rewrite <- Zle_Qle. lia.
      * change (1440 # 1) with (inject_Z 1440). rewrite <- Zlt_Qlt. lia.
Qed.

End RoundTrip.

(** * Sleep efficiency is not clamped *)


Section Efficiency.
Context {L : Lib}.


End Efficiency.

(** * Rounded totals need not add up *)





Section Totals.
Context {L : Lib}.


End Totals.

(** * The parameter table *)

Lemma loc_set_mean_same t var m' v :
  loc t var = inr v -> loc (set_mean t var m') var = inr (m', snd v).
Proof.
  induction t as [|[k [m sd]] t IH]; cbn; [discriminate|].
  destruct (String.eqb k var) eqn:E; cbn; rewrite E.
  - intros [= <-]. reflexivity.
  - exact IH.
Qed.

Lemma loc_set_mean_other t var var' m' :
  var' <> var -> loc (set_mean t var m') var' = loc t var'.
Proof.
  intros Hne. induction t as [|[k [m sd]] t IH]; cbn; [reflexivity|].
  destruct (String.eqb k var) eqn:E; cbn.
  - apply String.eqb_eq in E. subst k.
    rewrite (proj2 (String.eqb_neq var var')) by congruence. exact IH.
  - destruct (String.eqb k var'); [reflexivity | exact IH].
Qed.

Lemma loc_scale_sd_same t var c v :
  loc t var = inr v -> loc (scale_sd t var c) var = inr (fst v, snd v * c).
Proof.
  induction t as [|[k [m sd]] t IH]; cbn; [discriminate|].
  destruct (String.eqb k var) eqn:E; cbn; rewrite E.
  - intros [= <-]. reflexivity.
  - exact IH.
Qed.

Lemma loc_scale_sd_other t var var' c :
  var' <> var -> loc (scale_sd t var c) var' = loc t var'.
Proof.
  intros Hne. induction t as [|[k [m sd]] t IH]; cbn; [reflexivity|].
  destruct (String.eqb k var) eqn:E; cbn.
  - apply String.eqb_eq in E. subst k.
    rewrite (proj2 (String.eqb_neq var var')) by congruence. exact IH.
  - destruct (String.eqb k var'); [reflexivity | exact IH].
Qed.

Lemma loc_missing t var e : loc t var = inl e -> e = KeyError var.
Proof.
  induction t as [|[k v] t IH]; cbn; [intros [= <-]; reflexivity|].
  destruct (String.eqb k var); [discriminate | exact IH].
Qed.

Section Parameters.
Context {L : Lib}.

Lemma normalizable_returns (val : pyval) (b : bool) :
  normalizable val = true -> exists q, convert_time_to_minutes val b = inr q.
Proof.
  destruct val; cbn; intros H; try discriminate; eauto.
  destruct (to_datetime s); [eauto | discriminate].
Qed.

(** X3.  Normalising the table rewrites the two clock rows only: the Light Off
    mean becomes its minute value under the evening flag and the Sleep End
    mean its minute value without it, both SDs are multiplied by 60, and
    every other row (SOL and WASO among them) is read as it was given. *)
Theorem normalisation_touches_clock_rows_only (params t : param_table) :
  normalize_params params = inr t ->
  exists (m_loff m_send : pyval) (sd_loff sd_send q_loff q_send : Q),
    loc params "Light Off" = inr (m_loff, sd_loff)
    /\ loc params "Sleep End" = inr (m_send, sd_send)
    /\ convert_time_to_minutes m_loff true = inr q_loff
    /\ convert_time_to_minutes m_send false = inr q_send
    /\ get_params t "Light Off" = inr (q_loff, sd_loff * 60)
    /\ get_params t "Sleep End" = inr (q_send, sd_send * 60)
    /\ forall var : string,
         var <> "Light Off"%string -> var <> "Sleep End"%string ->
         loc t var = loc params var.
Proof.
  unfold normalize_params. intros H.
  destruct (loc params "Light Off") as [e|[m1 sd1]] eqn:E1; [discriminate|].
  cbn [res_bind fst] in H.
  destruct (convert_time_to_minutes m1 true) as [e|q1] eqn:C1; [discriminate|].
  cbn [res_bind] in H.
  assert (E2' : loc (set_mean params "Light Off" (VFloat q1)) "Sleep End"
                = loc params "Sleep End")
    by (apply loc_set_mean_other; discriminate).
  rewrite E2' in H.
  destruct (loc params "Sleep End") as [e|[m2 sd2]] eqn:E2; [discriminate|].
  cbn [res_bind fst] in H.
  destruct (convert_time_to_minutes m2 false) as [e|q2] eqn:C2; [discriminate|].
  cbn [res_bind] in H. cbv zeta in H. injection H as <-.
  exists m1, m2, sd1, sd2, q1, q2.
  do 4 (split; [first [reflexivity | assumption]|]).
  assert (L1 : loc (set_mean params "Light Off" (VFloat q1)) "Light Off"
               = inr (VFloat q1, sd1))
    by (apply (loc_set_mean_same _ _ _ _ E1)).
  assert (L2 : loc (set_mean (set_mean params "Light Off" (VFloat q1))
                             "Sleep End" (VFloat q2)) "Sleep End"
               = inr (VFloat q2, sd2)).
  { apply (loc_set_mean_same _ _ _ (m2, sd2)). exact E2'. }
  split; [| split].
  - unfold get_params.
    rewrite loc_scale_sd_other by discriminate.
    rewrite (loc_scale_sd_same _ _ _ (VFloat q1, sd1));
      [reflexivity|].
    rewrite loc_set_mean_other by discriminate. exact L1.
  - unfold get_params.
    rewrite (loc_scale_sd_same _ _ _ (VFloat q2, sd2)); [reflexivity|].
    rewrite loc_scale_sd_other by discriminate. exact L2.
  - intros var H1 H2.
    rewrite !loc_scale_sd_other, !loc_set_mean_other by assumption. reflexivity.
Qed.

(** X2.  An error of the normalisation stage ends the run with that error,
    whatever the participant and day counts (zero included) and before
    anything is drawn: a missing Light Off or Sleep End row gives the key
    error of that row, a mean of an unsupported type the type mismatch. *)
Theorem parameter_errors_are_fatal params (D P : nat) seed s0 :
  (forall e, normalize_params params = inl e ->
             Advanced.generate_time_series_sleepdata params D P seed s0 = inl e
             /\ Basic.generate_time_series_sleepdata params D P seed s0 = inl e)
  /\ (forall e, loc params "Light Off" = inl e ->
                normalize_params params = inl (KeyError "Light Off"))
  /\ (forall ty sd, loc params "Light Off" = inr (VOther ty, sd) ->
                    normalize_params params
                    = inl (TypeError ("Unexpected type: " ++ ty)))
  /\ (forall m sd e, loc params "Light Off" = inr (m, sd) ->
                     normalizable m = true ->
                     loc params "Sleep End" = inl e ->
                     normalize_params params = inl (KeyError "Sleep End"))
  /\ (forall m sd ty sd', loc params "Light Off" = inr (m, sd) ->
                          normalizable m = true ->
                          loc params "Sleep End" = inr (VOther ty, sd') ->
                          normalize_params params
                          = inl (TypeError ("Unexpected type: " ++ ty))).
Proof.
  split; [| split; [| split; [| split]]].
  - intros e H. rewrite advanced_run_eq, basic_run_eq, H. split; reflexivity.
  - intros e H. unfold normalize_params. rewrite H.
    rewrite (loc_missing _ _ _ H). reflexivity.
  - intros ty sd H. unfold normalize_params. rewrite H. reflexivity.
  - intros m sd e H Hm H2. unfold normalize_params. rewrite H. cbn [res_bind fst].
    destruct (normalizable_returns m true Hm) as [q ->].
    cbn [res_bind]. rewrite loc_set_mean_other by discriminate.
    rewrite H2, (loc_missing _ _ _ H2). reflexivity.
  - intros m sd ty sd' H Hm H2. unfold normalize_params. rewrite H.
    cbn [res_bind fst].
    destruct (normalizable_returns m true Hm) as [q ->].
    cbn [res_bind]. rewrite loc_set_mean_other by discriminate.
    rewrite H2. reflexivity.
Qed.

End Parameters.

(** * The path of the second file *)

Lemma substring_split (s : string) (i : nat) :
  (i <= String.length s)%nat ->
  (substring 0 i s ++ substring i (String.length s - i) s)%string = s.
Proof.
  revert i. induction s as [|c s IH]; intros i Hi.
  - cbn in Hi. assert (i = 0%nat) by lia. subst i. reflexivity.
  - destruct i as [|i].
    + cbn [substring String.length Nat.sub append].
      f_equal. specialize (IH 0%nat (Nat.le_0_l _)).
      rewrite Nat.sub_0_r in IH. destruct s; cbn in *; [reflexivity | exact IH].
    + cbn [substring String.length Nat.sub append]. f_equal. apply IH.
      cbn in Hi. lia.
Qed.

Lemma rfind_dot_bound (s : string) (i : nat) :
  rfind_dot s = Some i -> (i < String.length s)%nat.
Proof.
  revert i. induction s as [|c s IH]; intros i; cbn; [discriminate|].
  destruct (rfind_dot s) as [j|].
  - intros [= <-]. specialize (IH j eq_refl). lia.
  - destruct (Ascii.eqb c "."); [intros [= <-]; lia | discriminate].
Qed.

Lemma string_append_empty (s : string) : (s ++ EmptyString)%string = s.
Proof. induction s as [|c s IH]; cbn; [reflexivity | rewrite IH; reflexivity]. Qed.

Lemma stem_suffix (nm : string) : (stem nm ++ suffix nm)%string = nm.
Proof.
  unfold stem, suffix, suffix_start.
  destruct (rfind_dot nm) as [i|] eqn:E.
  - destruct ((0 <? i) && (i <? String.length nm - 1))%nat.
    + apply substring_split. apply rfind_dot_bound in E. lia.
    + apply string_append_empty.
  - apply string_append_empty.
Qed.

Lemma rfind_dot_extension (base ext : string) :
  rfind_dot ext = None ->
  rfind_dot (base ++ "." ++ ext) = Some (String.length base).
Proof.
  intros He. induction base as [|c base IH]; cbn.
  - rewrite He. reflexivity.
  - cbn in IH. rewrite IH. reflexivity.
Qed.

Lemma substring_prefix (a b : string) :
  substring 0 (String.length a) (a ++ b) = a.
Proof.
  induction a as [|c a IH]; cbn; [destruct b; reflexivity | rewrite IH; reflexivity].
Qed.

Lemma substring_tail (a b : string) :
  substring (String.length a) (String.length b) (a ++ b) = b.
Proof.
  induction a as [|c a IH]; cbn; [| exact IH].
  induction b as [|c b IHb]; cbn; [reflexivity | rewrite IHb; reflexivity].
Qed.

(** X17.  The second file is written next to the first one, under a different
    name, so it never overwrites it: the name is the stem of the first
    name, then [_jsonblock_only], then its suffix (fifteen characters
    longer), and a name [base.ext] becomes [base_jsonblock_only.ext]. *)
Theorem jsonblock_path_is_a_sibling (output_path : path) :
  parent (jsonblock_path output_path) = parent output_path
  /\ (stem (name output_path) ++ suffix (name output_path))%string
     = name output_path
  /\ String.length (name (jsonblock_path output_path))
     = (String.length (name output_path) + 15)%nat
  /\ name (jsonblock_path output_path) <> name output_path
  /\ jsonblock_path output_path <> output_path
  /\ (forall base ext : string,
        base <> EmptyString -> ext <> EmptyString -> rfind_dot ext = None ->
        name output_path = (base ++ "." ++ ext)%string ->
        name (jsonblock_path output_path)
        = (base ++ "_jsonblock_only" ++ "." ++ ext)%string).
Proof.
  assert (Hlen : String.length (name (jsonblock_path output_path))
                 = (String.length (name output_path) + 15)%nat).
  { unfold jsonblock_path. cbn [name].
    rewrite <- (stem_suffix (name output_path)) at 3.
    rewrite !string_length_append. cbn [String.length]. lia. }
  split; [reflexivity|]. split; [apply stem_suffix|]. split; [exact Hlen|].
  split; [intros E; rewrite E in Hlen; lia|].
  split; [intros E; rewrite E in Hlen; lia|].
  intros base ext Hb He Hdot Hname.
  unfold jsonblock_path. cbn [name]. rewrite Hname.
  assert (Hs : suffix_start (base ++ "." ++ ext) = Some (String.length base)).
  { unfold suffix_start. rewrite (rfind_dot_extension base ext Hdot).
    rewrite string_length_append. cbn [append String.length].
    destruct base as [|c base]; [congruence|].
    destruct ext as [|c' ext]; [congruence|].
    cbn [String.length].
    replace ((0 <? S (String.length base))%nat) with true
      by (symmetry; apply Nat.ltb_lt; lia).
    replace ((S (String.length base) <?
              S (String.length base) + S (S (String.length ext)) - 1)%nat)
      with true by (symmetry; apply Nat.ltb_lt; lia).
    reflexivity. }
  unfold stem, suffix. rewrite Hs.
  rewrite substring_prefix.
  replace (String.length (base ++ "." ++ ext) - String.length base)%nat
    with (String.length ("." ++ ext))
    by (rewrite !string_length_append; lia).
  rewrite substring_tail. reflexivity.
Qed.

(** * The full view *)

Section FullView.
Context {L : Lib}.


End FullView.

(** * The Day column of the advanced script *)

Lemma days_in_month_pos (y m : nat) : (28 <= days_in_month y m)%nat.
Proof.
  unfold days_in_month.
  destruct m as [|[|[|[|[|[|[|[|[|[|[|[|m]]]]]]]]]]]];
    cbv beta iota; try destruct (is_leap y); lia.
Qed.

Lemma next_day_valid (d : date) : valid_date d -> valid_date (next_day d).
Proof.
  unfold valid_date, next_day. intros [Hm Hd].
  destruct (d_day d <? days_in_month (d_year d) (d_month d))%nat eqn:E.
  - apply Nat.ltb_lt in E. cbn [d_year d_month d_day]. lia.
  - destruct (d_month d <? 12)%nat eqn:E2.
    + apply Nat.ltb_lt in E2. cbn [d_year d_month d_day].
      pose proof (days_in_month_pos (d_year d) (S (d_month d))). lia.
    + cbn [d_year d_month d_day].
      pose proof (days_in_month_pos (S (d_year d)) 1). lia.
Qed.

Lemma add_days_valid (d : date) (n : nat) :
  valid_date d -> valid_date (add_days d n).
Proof.
  intros H. unfold add_days. induction n as [|n IH]; cbn; [exact H|].
  apply next_day_valid, IH.
Qed.

Lemma march_2024_check :
  forallb (fun n => String.eqb (strftime_dmY (add_days Advanced.start_date n))
                               (zfill 2 (S n) ++ "/03/2024"))
          (seq 0 31) = true.
Proof. vm_compute. reflexivity. Qed.

Lemma march_2024 (n : nat) :
  (n < 31)%nat ->
  strftime_dmY (add_days Advanced.start_date n)
  = (zfill 2 (S n) ++ "/03/2024")%string.
Proof.
  intros Hn. pose proof march_2024_check as H. rewrite forallb_forall in H.
  apply String.eqb_eq, H, in_seq. lia.
Qed.

Section DayColumn.
Context {L : Lib}.

(** X12.  In both views, the Day cell of row i is the date i mod D days after
    1 March 2024, a date of the calendar, written dd/mm/yyyy: every
    participant has the same dates, each row of a participant is the day
    after the row before it, and the first 31 days read dd/03/2024. *)
Theorem day_cells_are_calendar_dates params (D P : nat) seed s0 df blk s1 :
  Advanced.generate_time_series_sleepdata params D P seed s0
  = inr ((df, blk), s1) ->
  forall (i : nat) (r b : row),
    nth_error df i = Some r -> nth_error blk i = Some b ->
    let d := add_days Advanced.start_date (i mod D) in
    get r "Day" = Some (CStr (strftime_dmY d))
    /\ get b "Day" = Some (CStr (strftime_dmY d))
    /\ valid_date d
    /\ ((i mod D < 31)%nat ->
        strftime_dmY d = (zfill 2 (S (i mod D)) ++ "/03/2024")%string)
    /\ (forall r', (S i mod D <> 0)%nat -> nth_error df (S i) = Some r' ->
                   get r' "Day" = Some (CStr (strftime_dmY (next_day d)))).
Proof.
  intros H i r b Hr Hb. apply advanced_run_inv in H.
  destruct H as (t & recs & _ & Hs & _ & -> & ->).
  apply advanced_recs_ids in Hs.
  assert (Hday : forall j x, nth_error recs j = Some x ->
                             get (full_row x) "Day"
                             = Some (CStr (strftime_dmY
                                             (add_days Advanced.start_date (j mod D))))).
  { intros j x Hx. pose proof (nth_id dd_id recs D P j x Hs Hx) as Hid.
    unfold dd_id in Hid. injection Hid as _ Hd.
    change (get (full_row x) "Day")
      with (Some (CStr (strftime_dmY (add_days Advanced.start_date (dd_day x - 1))))).
    rewrite Hd. cbn [Nat.sub]. rewrite Nat.sub_0_r. reflexivity. }
  rewrite nth_error_map in Hr, Hb.
  destruct (nth_error recs i) as [x|] eqn:Ei; [| discriminate].
  cbn [option_map] in Hr, Hb. injection Hr as <-. injection Hb as <-.
  cbv zeta. split; [apply (Hday i x Ei)|]. split; [apply (Hday i x Ei)|].
  split; [apply add_days_valid; cbv; lia|].
  split; [apply march_2024|].
  intros r' Hmod Hr'. rewrite nth_error_map in Hr'.
  destruct (nth_error recs (S i)) as [x'|] eqn:Ei'; [| discriminate].
  cbn [option_map] in Hr'. injection Hr' as <-.
  rewrite (Hday (S i) x' Ei').
  assert (HD : D <> 0%nat).
  { intros ->.
    assert (Hl : List.length recs = 0%nat)
      by (rewrite <- (length_map dd_id), Hs, grid_length; lia).
    destruct recs; [destruct i; discriminate | discriminate]. }
  assert (Hs' : (S i mod D = S (i mod D))%nat).
  { pose proof (Nat.mod_upper_bound i D HD) as Hb1.
    pose proof (Nat.mod_upper_bound (S i) D HD) as Hb2.
    pose proof (Nat.div_mod_eq i D) as E1.
    destruct (Nat.eq_dec (S (i mod D)) D) as [E|E].
    - exfalso. apply Hmod.
      replace (S i) with (D * (i / D) + D)%nat by lia.
      replace (D * (i / D) + D)%nat with (0 + (S (i / D)) * D)%nat by lia.
      rewrite Nat.Div0.mod_add. apply Nat.Div0.mod_0_l.
    - replace (S i) with (S (i mod D) + (i / D) * D)%nat by lia.
      rewrite Nat.Div0.mod_add. apply Nat.mod_small. lia. }
  rewrite Hs'. reflexivity.
Qed.

End DayColumn.

(** * The further statements on concrete runs *)

Lemma toy_reshaped_run :
  Advanced.generate_time_series_sleepdata Toy.sample_params 2 3 42 0%nat
  = inr ((fst Toy.reshaped_views, snd Toy.reshaped_views), 102%nat).
Proof. vm_compute. reflexivity. Qed.

Lemma toy_full_row (i : nat) :
  (i < 6)%nat ->
  nth_error (fst Toy.advanced_views) i = Some (nth i (fst Toy.advanced_views) []).
Proof.
  intros Hi. apply nth_error_nth'.
  replace (List.length (fst Toy.advanced_views)) with 6%nat
    by (vm_compute; reflexivity).
  exact Hi.
Qed.

Lemma toy_block_row (i : nat) :
  (i < 6)%nat ->
  nth_error (snd Toy.advanced_views) i = Some (nth i (snd Toy.advanced_views) []).
Proof.
  intros Hi. apply nth_error_nth'.
  replace (List.length (snd Toy.advanced_views)) with 6%nat
    by (vm_compute; reflexivity).
  exact Hi.
Qed.

Lemma habit_cells_witness :
  Forall (fun r => exists q, get r "SQ" = Some (CInt q) /\ (1 <= q <= 10)%Z)
         (fst Toy.advanced_views ++ snd Toy.advanced_views).
Proof.
  eapply Forall_impl;
    [| exact (habit_cells_in_range _ _ _ _ _ _ _ _ toy_advanced_run)].
  intros r (q & _ & _ & _ & _ & H1 & H2 & _). exists q. split; assumption.
Defined.

Lemma one_more_participant_witness :
  exists df blk s1 new_full new_block,
    Advanced.generate_time_series_sleepdata Toy.sample_params 3 1 42 0%nat
    = inr ((df, blk), s1)
    /\ fst Toy.advanced_views = (df ++ new_full)%list
    /\ snd Toy.advanced_views = (blk ++ new_block)%list
    /\ List.length new_full = 3%nat /\ List.length new_block = 3%nat.
Proof.
  exact (proj1 (@one_more_participant_appends Toy.ToyLib Toy.sample_params 3 1 42
                  0%nat (Nat.lt_0_succ 0))
           _ _ _ toy_advanced_run).
Defined.

Lemma first_record_witness :
  exists rb ra,
    hd_error Toy.basic_table = Some rb
    /\ hd_error (fst Toy.advanced_views) = Some ra
    /\ Forall (fun c => get rb c = get ra c /\ get ra c <> None)
         [ "Lights_Off"; "Sleep_End"; "SOL"; "WASO"; "Out_of_Bed"; "TIB";
           "TST"; "SE"; "Lights_Off_Clock"; "Sleep_End_Clock" ]%string.
Proof.
  exact (first_record_agrees _ _ _ _ _ _ _ _ _ _ _ toy_basic_run toy_advanced_run).
Defined.

Lemma same_product_witness :
  List.length (fst Toy.advanced_views) = List.length (fst Toy.reshaped_views)
  /\ forall r1 r2,
       nth_error (fst Toy.advanced_views) 4 = Some r1 ->
       nth_error (fst Toy.reshaped_views) 4 = Some r2 ->
       get r1 "SOL" = get r2 "SOL".
Proof.
  destruct (@same_product_same_values Toy.ToyLib Toy.sample_params 42 3 2 2 3 0%nat 0%nat
              _ _ _ _ _ _ eq_refl toy_advanced_run toy_reshaped_run)
    as (_ & Hlen & Hcells).
  split; [exact Hlen|].
  exact (proj1 (Hcells 4%nat "SOL"%string
                  ltac:(discriminate) ltac:(discriminate) ltac:(discriminate))).
Defined.

Lemma participant_codes_witness :
  get (nth 0 (fst Toy.advanced_views) []) "Participant"
  <> get (nth 3 (fst Toy.advanced_views) []) "Participant"
  /\ get (nth 0 (fst Toy.advanced_views) []) "Participant"
     = get (nth 2 (fst Toy.advanced_views) []) "Participant".
Proof.
  pose proof (participant_codes_are_unique _ _ _ _ _ _ _ _ toy_advanced_run) as H.
  split.
  - intros E.
    destruct (H 0%nat 3%nat _ _ (toy_full_row 0 ltac:(lia)) (toy_full_row 3 ltac:(lia)))
      as (_ & _ & [H1 _] & _).
    specialize (H1 E). discriminate H1.
  - destruct (H 0%nat 2%nat _ _ (toy_full_row 0 ltac:(lia)) (toy_full_row 2 ltac:(lia)))
      as (_ & _ & [_ H2] & _).
    apply H2. reflexivity.
Defined.

Lemma basic_table_witness : List.length Toy.basic_table = 6%nat.
Proof. exact (proj1 (basic_table_shape _ _ _ _ _ _ _ toy_basic_run)). Defined.

Lemma normalise_then_format_witness :
  exists q,
    convert_time_to_minutes (VTime (mkTime 23 30 0 0)) true = inr q
    /\ minutes_to_clock q = clock_string 23 30
    /\ (-360 # 1 <= q /\ q < 1080 # 1).
Proof.
  apply (@normalise_then_format Toy.ToyLib (VTime (mkTime 23 30 0 0))
           (mkTime 23 30 0 0) true eq_refl).
  unfold valid_clock. cbn. lia.
Defined.


Lemma toy_normalisation :
  normalize_params Toy.sample_params
  = inr [ ("Light Off", (VFloat (-30 # 1), 1 * 60));
          ("Sleep End", (VFloat (435 # 1), (1 # 2) * 60));
          ("SOL", (VInt 20, 10));
          ("WASO", (VFloat (25 # 2), 5)) ].
Proof. reflexivity. Qed.

Lemma normalisation_witness :
  exists q_loff sd_loff,
    get_params
      [ ("Light Off", (VFloat (-30 # 1), 1 * 60));
        ("Sleep End", (VFloat (435 # 1), (1 # 2) * 60));
        ("SOL", (VInt 20, 10));
        ("WASO", (VFloat (25 # 2), 5)) ] "Light Off"
    = inr (q_loff, sd_loff * 60)
    /\ convert_time_to_minutes (VTime (mkTime 23 30 0 0)) true = inr q_loff.
Proof.
  destruct (normalisation_touches_clock_rows_only _ _ toy_normalisation)
    as (m1 & m2 & sd1 & sd2 & q1 & q2 & E1 & _ & C1 & _ & G1 & _).
  injection E1 as <- <-. exists q1, 1. split; [exact G1 | exact C1].
Defined.


Lemma day_cells_witness :
  get (nth 4 (fst Toy.advanced_views) []) "Day" = Some (CStr "02/03/2024").
Proof.
  destruct (day_cells_are_calendar_dates _ _ _ _ _ _ _ _ toy_advanced_run
              4%nat _ _ (toy_full_row 4 ltac:(lia)) (toy_block_row 4 ltac:(lia)))
    as (H & _).
  exact H.
Defined.
